(** * warp-server: user controller, class routes and response boundary

    A shallow embedding of

    - [src/controllers/function.ts] (class [UserController]),
    - [src/routes/classes.js]       (functions [find], [first], [create],
                                     [update], [destroy]),
    - the [Response] class          (methods [success] and [error]),

    together with the properties of the specification that concern them.

    JavaScript [async] functions are embedded in a state-and-error monad:
    an [await]ed call is a bind, a [throw] (a rejected promise) is the
    [Throw] outcome.  Everything the sources import from files that are
    not part of the embedded sources (the model base class, the session
    class, the server object, the [Error] class, the [Defaults] table) is
    an explicit parameter: a record of operations on an abstract [Store]. *)

From stdpp Require Import gmap strings list pretty.

Local Open Scope string_scope.
Local Open Scope Z_scope.

(** ** JavaScript values *)

(** The values that flow through key bags ([keys: {[name: string]: any}]). *)
Inductive JsValue :=
| JUndefined
| JNumber (n : Z)
| JString (s : string)
| JPointer (className : string) (id : Z).

#[global] Instance JsValue_eq_dec : EqDecision JsValue.
Proof. solve_decision. Defined.

(** A key bag: a JavaScript object used as a map from key names to values. *)
Abbreviation Keys := (gmap string JsValue).

(** [x || d] for an optional number: [undefined] and [0] are falsy.
    Numbers ([id], [skip], [limit], status and error codes) are integers
    here; [NaN], falsy as well, is left out. *)
Definition js_or_number (x : option Z) (d : Z) : Z :=
  match x with
  | Some n => if n =? 0 then d else n
  | None => d
  end.

(** [x || d] for an optional array: every array, even the empty one, is
    truthy; only [undefined] selects [d]. *)
Definition js_or_array {A} (x : option (list A)) (d : list A) : list A :=
  match x with
  | Some l => l
  | None => d
  end.

(** [Number.isSafeInteger(n)]: the integers that a JavaScript number holds
    exactly and prints with all their decimal digits. *)
Definition safe_integer (n : Z) : bool :=
  (- (2 ^ 53 - 1) <=? n) && (n <=? 2 ^ 53 - 1).

(** ** Errors *)

(** [new Error(code, message)].  The [code] of an arbitrary thrown value may
    be [undefined] ([Response.error] tests for it). *)
Record Error := mkError {
  code : option Z;
  message : string
}.

#[global] Instance Error_eq_dec : EqDecision Error.
Proof. solve_decision. Defined.

(** The members of [Error.Code] that the sources name.  The table itself is
    declared in [utils/error]; the controller spells the forbidden-operation
    member [ForbdiddenOperation], and that spelling is kept. *)
Record ErrorCodes := {
  ForbdiddenOperation : Z;
  InvalidCredentials : Z;
  InvalidSessionToken : Z;
  DatabaseError : Z
}.

Definition newError (c : Z) (msg : string) : Error :=
  {| code := Some c; message := msg |}.

Inductive Outcome (A : Type) :=
| Ok (a : A)
| Throw (e : Error).
Arguments Ok {A} a.
Arguments Throw {A} e.

(** ** Request data *)

(** Per-request context built by the middleware. *)
Record Metadata := {
  isMaster : bool;
  client : JsValue
}.

Inductive SortKey :=
| SortField (field : string)
| SortObject (field : string) (direction : JsValue).

(** [where?: {[name: string]: {[name: string]: any}}] *)
Abbreviation WhereType := (option (gmap string (gmap string JsValue))).

(** [new ConstraintMap(where)] wraps the constraints it accepted. *)
Record ConstraintMap := { constraints : gmap string (gmap string JsValue) }.

(** [Defaults.Query] of [utils/constants]. *)
Record QueryDefaults := {
  Sort : list SortKey;
  Skip : Z;
  Limit : Z
}.

(** The query descriptor handed to [modelClass.find]. *)
Record Query := {
  q_select : option (list string);
  q_include : option (list string);
  q_where : ConstraintMap;
  q_sort : list SortKey;
  q_skip : Z;
  q_limit : Z
}.

(** The query descriptor handed to [getById] and [first]. *)
Record GetQuery := {
  g_select : list string;
  g_include : list string;
  g_id : Z
}.

Record Credentials := {
  c_username : option string;
  c_email : option string;
  c_password : string
}.

Section Warp.

(** [Store] is the state behind the storage driver, the token generator
    and the clock; [Model] is the type of model instances (users,
    sessions, objects of named classes); [SDK] is the [Warp] object of
    [warp-sdk-js]. *)
Context {Store Model SDK : Type}.

(** A call that may read and change the store, and may throw. *)
Definition Effect (A : Type) : Type := Store -> Outcome A * Store.

(** The argument of [new modelClass({ metadata, currentUser, keys, id })];
    a property that a call site leaves out is [None]. *)
Record CtorArgs := {
  a_metadata : Metadata;
  a_currentUser : option Model;
  a_keys : option Keys;
  a_id : option Z
}.

(** Methods of a model instance (declared by the model base class).
    [bindSDK], [save] and [destroy] change the instance in place; here
    they return the instance as it is after the call. *)
Record ModelOps := {
  model_id : Model -> option Z;
  model_bindSDK : option SDK -> Model -> Model;
  model_save : Model -> Effect Model;
  model_destroy : Model -> Effect Model;
  model_toPointerJSON : Model -> JsValue
}.

(** Static side of a model class. *)
Record ModelClass := {
  mc_new : CtorArgs -> Outcome Model;
  mc_instanceof : Model -> bool;
  mc_find : Query -> Effect (list Model);
  mc_getById : GetQuery -> Effect (option Model);
  mc_first : GetQuery -> Effect (option Model)
}.

(** The session class: a model class with the names of its keys and the
    lookup by token. *)
Record SessionClass := {
  sc_class :> ModelClass;
  userKey : string;
  originKey : string;
  sessionTokenKey : string;
  revokedAtKey : string;
  getFromToken : string -> Effect (option Model)
}.

(** The server object ([this._api] in the controller, [api] in the
    routes). [auth.user()] and [auth.session()] are getters. *)
Record WarpServer := {
  parseSubqueries : WhereType -> Outcome WhereType;
  auth_user : ModelClass;
  auth_session : SessionClass;
  authenticate : Credentials -> Effect (option Model);
  createSessionToken : Model -> Effect JsValue;
  getRevocationDate : Effect JsValue;
  models_get : string -> Outcome ModelClass
}.

(** *** The request monad *)

(** What a request does, in order: the authorization conditions it
    evaluates and the calls it issues against the store. *)
Inductive Event :=
| EvAuthorize (allowed : bool)
| EvFind (q : Query)
| EvGetById (q : GetQuery)
| EvFirst (q : GetQuery)
| EvSave (m : Model)
| EvDestroy (m : Model)
| EvAuthenticate (c : Credentials)
| EvCreateSessionToken (user : Model)
| EvGetRevocationDate
| EvGetFromToken (token : string).

Record World := {
  store : Store;
  trace : list Event
}.

Definition M (A : Type) : Type := World -> Outcome A * World.

Definition ret {A} (a : A) : M A := fun w => (Ok a, w).

Definition throw {A} (e : Error) : M A := fun w => (Throw e, w).

Definition bind {A B} (c : M A) (k : A -> M B) : M B :=
  fun w =>
    match c w with
    | (Ok a, w') => k a w'
    | (Throw e, w') => (Throw e, w')
    end.

Definition record (ev : Event) (w : World) : World :=
  {| store := store w; trace := trace w ++ [ev] |}.

(** A synchronous call that does not touch the store. *)
Definition lift {A} (o : Outcome A) : M A := fun w => (o, w).

(** A call against the store: the event is recorded when the call is
    issued, then the store is threaded through it. *)
Definition call {A} (ev : Event) (f : Effect A) : M A :=
  fun w =>
    let '(r, s) := f (store w) in
    (r, {| store := s; trace := trace w ++ [ev] |}).

(** [if (!allowed) throw e;] for the conditions that decide whether the
    caller may go on to a mutation (creating, updating or destroying a
    user, logging in). *)
Definition authorize (allowed : bool) (e : Error) : M unit :=
  fun w =>
    if allowed then (Ok tt, record (EvAuthorize true) w)
    else (Throw e, record (EvAuthorize false) w).

End Warp.

Arguments CtorArgs : clear implicits.
Arguments ModelOps : clear implicits.
Arguments ModelClass : clear implicits.
Arguments SessionClass : clear implicits.
Arguments WarpServer : clear implicits.
Arguments Event : clear implicits.
Arguments World : clear implicits.
Arguments Effect : clear implicits.
Arguments M : clear implicits.

Notation "'let!' x ':=' c 'in' k" := (bind c (fun x => k))
  (at level 10, x name, c at level 100, k at level 200,
   format "'[v' 'let!'  x  ':='  c  'in' '/' k ']'").

(** ** Reading a trace *)

Section Traces.

Context {Store Model : Type}.

(** The events of one request that starts on store [s]. *)
Definition events_of {A} (c : M Store Model A) (s : Store)
    : list (Event Model) :=
  trace (snd (c {| store := s; trace := [] |})).

(** Every [save] and [destroy] of the trace comes after an authorization
    condition, and the last such condition before it allowed the caller.
    [allowed] is the verdict so far; a request starts with none. *)
Fixpoint writes_authorized (allowed : bool) (tr : list (Event Model))
    : bool :=
  match tr with
  | [] => true
  | EvAuthorize verdict :: tr => writes_authorized verdict tr
  | EvSave _ :: tr | EvDestroy _ :: tr =>
      allowed && writes_authorized allowed tr
  | _ :: tr => writes_authorized allowed tr
  end.

End Traces.

(** ** The user controller *)

(** [typeof x !== 'undefined'] *)
Definition is_defined {A} (x : option A) : bool :=
  match x with Some _ => true | None => false end.

Module UserController.
Section Methods.

Context {Store Model SDK : Type}.

(** [Error.Code], [Defaults.Query], [new ConstraintMap(where)], the
    instance methods of models, and the server object [this._api]. *)
Variable Code : ErrorCodes.
Variable Defaults : QueryDefaults.
Variable newConstraintMap : WhereType -> Outcome ConstraintMap.
Variable ops : ModelOps Store Model SDK.
Variable api : WarpServer Store Model.

(** The conversion of a number to a string that a template literal applies
    to [${id}].  It belongs to the JavaScript engine: decimal digits for a
    safe integer, an exponent from [1e+21] on. *)
Variable numberToString : Z -> string.

Definition find (select include : option (list string)) (where_ : WhereType)
    (sort : option (list SortKey)) (skip limit : option Z)
    : M Store Model (list Model) :=
  (* Parse subqueries *)
  let! where_ := lift (parseSubqueries api where_) in
  (* Prepare query *)
  let! constraintMap := lift (newConstraintMap where_) in
  let query :=
    {| q_select := select;
       q_include := include;
       q_where := constraintMap;
       q_sort := js_or_array sort (Sort Defaults);
       q_skip := js_or_number skip (Skip Defaults);
       q_limit := js_or_number limit (Limit Defaults) |} in
  (* Get model *)
  let modelClass := auth_user api in
  (* Find matching objects *)
  call (EvFind query) (mc_find modelClass query).

(** [`User with id \`${id}\` not found`] *)
Definition not_found_message (id : Z) : string :=
  "User with id `" +:+ numberToString id +:+ "` not found".

Definition get (id : Z) (select include : option (list string))
    : M Store Model Model :=
  (* Prepare query *)
  let query :=
    {| g_select := js_or_array select [];
       g_include := js_or_array include [];
       g_id := id |} in
  (* Get model *)
  let modelClass := auth_user api in
  (* Find matching object *)
  let! model := call (EvGetById query) (mc_getById modelClass query) in
  (* Check if model is found *)
  match model with
  | None => throw (newError (ForbdiddenOperation Code) (not_found_message id))
  | Some model => ret model
  end.

Definition create (Warp : option SDK) (metadata : Metadata)
    (currentUser : option Model) (keys : Keys) : M Store Model Model :=
  (* Check if session token is provided *)
  let! _ := authorize (negb (is_defined currentUser))
    (newError (ForbdiddenOperation Code)
       "Users cannot be created using an active session. Please log out.") in
  (* Get model *)
  let modelClass := auth_user api in
  let! model := lift (mc_new modelClass
    {| a_metadata := metadata; a_currentUser := currentUser;
       a_keys := Some keys; a_id := None |}) in
  (* Bind Warp *)
  let model := model_bindSDK ops Warp model in
  (* Save the object *)
  call (EvSave model) (model_save ops model).

(** [!metadata.isMaster &&
     (typeof currentUser === 'undefined' || currentUser.id !== id)] *)
Definition not_owner_nor_master
    (metadata : Metadata) (currentUser : option Model) (id : Z) : bool :=
  negb (isMaster metadata) &&
  match currentUser with
  | None => true
  | Some u => negb (bool_decide (model_id ops u = Some id))
  end.

Definition update (Warp : option SDK) (metadata : Metadata)
    (currentUser : option Model) (keys : Keys) (id : Z)
    : M Store Model Model :=
  (* Check if the editor is the same user *)
  let! _ := authorize (negb (not_owner_nor_master metadata currentUser id))
    (newError (ForbdiddenOperation Code)
       "User details can only be edited by their owner or via master") in
  (* Get model *)
  let modelClass := auth_user api in
  let! model := lift (mc_new modelClass
    {| a_metadata := metadata; a_currentUser := currentUser;
       a_keys := Some keys; a_id := Some id |}) in
  (* Bind Warp *)
  let model := model_bindSDK ops Warp model in
  (* Save the object *)
  call (EvSave model) (model_save ops model).

Definition destroy (Warp : option SDK) (metadata : Metadata)
    (currentUser : option Model) (id : Z) : M Store Model Model :=
  (* Check if the destroyer is the same user *)
  let! _ := authorize (negb (not_owner_nor_master metadata currentUser id))
    (newError (ForbdiddenOperation Code)
       "User details can only be destroyed by their owner or via master") in
  (* Get model *)
  let modelClass := auth_user api in
  let! model := lift (mc_new modelClass
    {| a_metadata := metadata; a_currentUser := currentUser;
       a_keys := None; a_id := Some id |}) in
  (* Bind Warp *)
  let model := model_bindSDK ops Warp model in
  (* Destroy the object *)
  call (EvDestroy model) (model_destroy ops model).

(** The key bag of a new session: an object literal with computed keys,
    so a later entry overrides an earlier one of the same name. *)
Definition session_keys (sessionClass : SessionClass Store Model)
    (pointer origin token revokedAt : JsValue) : Keys :=
  <[revokedAtKey sessionClass := revokedAt]>
    (<[sessionTokenKey sessionClass := token]>
       (<[originKey sessionClass := origin]>
          (<[userKey sessionClass := pointer]> ∅))).

Definition logIn (Warp : option SDK) (metadata : Metadata)
    (currentUser : option Model) (username email : option string)
    (password : string) : M Store Model Model :=
  (* Get session class *)
  let sessionClass := auth_session api in
  (* Check if session token is provided *)
  let! _ := authorize (negb (is_defined currentUser))
    (newError (ForbdiddenOperation Code)
       "Cannot log in using an active session. Please log out.") in
  (* Authenticate the user *)
  let credentials :=
    {| c_username := username; c_email := email; c_password := password |} in
  let! user := call (EvAuthenticate credentials)
                    (authenticate api credentials) in
  (* If no user found *)
  match user with
  | None =>
      throw (newError (InvalidCredentials Code) "Invalid username/password")
  | Some user =>
      if negb (mc_instanceof (auth_user api) user) then
        throw (newError (InvalidCredentials Code) "Invalid username/password")
      else
        (* If the user is found, create a new session *)
        let pointer := model_toPointerJSON ops user in
        let origin := client metadata in
        let! token := call (EvCreateSessionToken user)
                           (createSessionToken api user) in
        let! revokedAt := call EvGetRevocationDate
                               (getRevocationDate api) in
        let keys := session_keys sessionClass pointer origin token revokedAt in
        let! session := lift (mc_new sessionClass
          {| a_metadata := metadata; a_currentUser := None;
             a_keys := Some keys; a_id := None |}) in
        (* Bind Warp *)
        let session := model_bindSDK ops Warp session in
        (* Save the new session *)
        call (EvSave session) (model_save ops session)
  end.

Definition me (currentUser : option Model) : M Store Model Model :=
  match currentUser with
  | None =>
      (* Check if currentUser exists *)
      throw (newError (InvalidSessionToken Code) "Session does not exist")
  | Some currentUser =>
      (* Return the current user *)
      ret currentUser
  end.

Definition logOut (Warp : option SDK) (sessionToken : string)
    : M Store Model Model :=
  (* Get session class *)
  let sessionClass := auth_session api in
  (* Find provided session *)
  let! session := call (EvGetFromToken sessionToken)
                       (getFromToken sessionClass sessionToken) in
  match session with
  | None =>
      throw (newError (InvalidSessionToken Code) "Session does not exist")
  | Some session =>
      (* Bind Warp *)
      let session := model_bindSDK ops Warp session in
      (* Destroy the session *)
      call (EvDestroy session) (model_destroy ops session)
  end.

End Methods.
End UserController.

(** ** The class routes *)

Module Classes.
Section Routes.

Context {Store Model SDK : Type}.

Variable Defaults : QueryDefaults.
Variable newConstraintMap : WhereType -> Outcome ConstraintMap.
Variable ops : ModelOps Store Model SDK.

Definition find (api : WarpServer Store Model) (className : string)
    (select include : option (list string)) (where_ : WhereType)
    (sort : option (list SortKey)) (skip limit : option Z)
    : M Store Model (list Model) :=
  (* Parse subqueries *)
  let! where_ := lift (parseSubqueries api where_) in
  (* Prepare query *)
  let! constraintMap := lift (newConstraintMap where_) in
  let query :=
    {| q_select := select;
       q_include := include;
       q_where := constraintMap;
       q_sort := js_or_array sort (Sort Defaults);
       q_skip := js_or_number skip (Skip Defaults);
       q_limit := js_or_number limit (Limit Defaults) |} in
  (* Get model *)
  let! modelClass := lift (models_get api className) in
  (* Find matching objects *)
  call (EvFind query) (mc_find modelClass query).

Definition first (api : WarpServer Store Model) (className : string)
    (id : Z) (select include : option (list string))
    : M Store Model (option Model) :=
  (* Prepare query *)
  let query :=
    {| g_select := js_or_array select [];
       g_include := js_or_array include [];
       g_id := id |} in
  (* Get model *)
  let! modelClass := lift (models_get api className) in
  (* Find matching objects *)
  call (EvFirst query) (mc_first modelClass query).

Definition create (api : WarpServer Store Model) (metadata : Metadata)
    (currentUser : option Model) (className : string) (keys : Keys)
    : M Store Model Model :=
  (* Get model *)
  let! modelClass := lift (models_get api className) in
  let! model := lift (mc_new modelClass
    {| a_metadata := metadata; a_currentUser := currentUser;
       a_keys := Some keys; a_id := None |}) in
  (* Save the object *)
  call (EvSave model) (model_save ops model).

Definition update (api : WarpServer Store Model) (metadata : Metadata)
    (currentUser : option Model) (className : string) (keys : Keys)
    (id : Z) : M Store Model Model :=
  (* Get model *)
  let! modelClass := lift (models_get api className) in
  let! model := lift (mc_new modelClass
    {| a_metadata := metadata; a_currentUser := currentUser;
       a_keys := Some keys; a_id := Some id |}) in
  (* Save the object *)
  call (EvSave model) (model_save ops model).

Definition destroy (api : WarpServer Store Model) (metadata : Metadata)
    (currentUser : option Model) (className : string) (id : Z)
    : M Store Model Model :=
  (* Get model *)
  let! modelClass := lift (models_get api className) in
  let! model := lift (mc_new modelClass
    {| a_metadata := metadata; a_currentUser := currentUser;
       a_keys := None; a_id := Some id |}) in
  (* Destroy the object *)
  call (EvDestroy model) (model_destroy ops model).

End Routes.
End Classes.

(** ** The response boundary *)

Module Response.
Section Methods.

Variable Code : ErrorCodes.

(** The [status] getter of the [Error] class. *)
Variable status : Error -> option Z.

(** What a middleware does with the request: hand over to the next
    handler ([next()], [next(err)]), or answer it
    ([res.status(s); res.json(body)]). *)
Inductive Reply (Body : Type) :=
| Next (err : option Error)
| Json (status : Z) (body : Body).
Arguments Next {Body} err.
Arguments Json {Body} status body.

(** [{ code, message }] *)
Record ErrorBody := {
  body_code : Z;
  body_message : string
}.

(** [{ result }] *)
Record ResultBody (Result : Type) := {
  body_result : Result
}.

Definition success {Result} (customResponse : bool) (result : Result)
    : Reply (ResultBody Result) :=
  (* Check if response success exists *)
  if customResponse then Next None
  else
    (* Set status and response *)
    Json 200 {| body_result := result |}.

Definition error (customResponse : bool) (err : Error) : Reply ErrorBody :=
  (* Check if response error exists *)
  if customResponse then Next (Some err)
  else
    (* Set code and message; check error code *)
    let '(code, message) :=
      match code err with
      | None => (400, message err)
      | Some code =>
          if code =? DatabaseError Code
          then (code, "Invalid query request")
          else (code, message err)
      end in
    (* Set status *)
    Json (js_or_number (status err) 400)
         {| body_code := code; body_message := message |}.

End Methods.

Arguments Next {Body} err.
Arguments Json {Body} status body.

End Response.

(** ** An in-memory server *)

(** Modelled from the spec: the storage driver, the model base class, the
    session class and the server object are not among the embedded sources.
    This module gives them the behaviour the specification describes: a
    session store with one live session per token value, deletion as the
    revocation mechanism, a token generator that never reuses a value, a
    revocation date of now plus a fixed time to live, and an authentication
    that answers nothing both for an unknown identifier and for a wrong
    password. *)
Module Ref.

(** A model instance: its class, id, keys and bound SDK. *)
Record Obj := {
  o_class : string;
  o_id : option Z;
  o_keys : Keys;
  o_sdk : option unit
}.

#[global] Instance Obj_eq_dec : EqDecision Obj.
Proof. solve_decision. Defined.

Record Db := {
  rows : list Obj;
  sessions : gmap string Obj;
  next_id : Z;
  issued : N;
  now : Z
}.

Definition codes : ErrorCodes :=
  {| ForbdiddenOperation := 106;
     InvalidCredentials := 102;
     InvalidSessionToken := 103;
     DatabaseError := 206 |}.

Definition defaults (limit : Z) : QueryDefaults :=
  {| Sort := [SortField "id"]; Skip := 0; Limit := limit |}.

Definition time_to_live : Z := 3600.

(** The conversion of numbers to strings: the decimal digits of a safe
    integer, and ["1e+21"] for [10 ^ 21], the first number that is printed
    with an exponent.  The conversion of the other numbers is not
    modelled; the ids of the in-memory server are safe integers. *)
Definition numberToString (n : Z) : string :=
  if safe_integer n then pretty n
  else if n =? 10 ^ 21 then "1e+21"
  else "<not modelled>".

Definition same_row (a b : Obj) : bool :=
  bool_decide (o_class a = o_class b) && bool_decide (o_id a = o_id b).

Definition with_id (m : Obj) (id : Z) : Obj :=
  {| o_class := o_class m; o_id := Some id;
     o_keys := o_keys m; o_sdk := o_sdk m |}.

Definition token_of (m : Obj) : option string :=
  match o_keys m !! "session_token" with
  | Some (JString t) => Some t
  | _ => None
  end.

Definition put_row (m : Obj) (db : Db) : Db :=
  {| rows := filter (fun r => same_row r m = false) (rows db) ++ [m];
     sessions := sessions db;
     next_id := next_id db; issued := issued db; now := now db |}.

Definition fresh_id (db : Db) : Db :=
  {| rows := rows db; sessions := sessions db;
     next_id := next_id db + 1; issued := issued db; now := now db |}.

Definition set_sessions (ss : gmap string Obj) (db : Db) : Db :=
  {| rows := rows db; sessions := ss;
     next_id := next_id db; issued := issued db; now := now db |}.

Definition save (m : Obj) : Effect Db Obj :=
  fun db =>
    let '(m, db) :=
      match o_id m with
      | Some _ => (m, db)
      | None => (with_id m (next_id db), fresh_id db)
      end in
    if bool_decide (o_class m = "session") then
      match token_of m with
      | Some t => (Ok m, set_sessions (<[t := m]> (sessions db)) db)
      | None =>
          (Throw (newError (DatabaseError codes) "session_token is required"),
           db)
      end
    else (Ok m, put_row m db).

Definition destroy (m : Obj) : Effect Db Obj :=
  fun db =>
    if bool_decide (o_class m = "session") then
      match token_of m with
      | Some t => (Ok m, set_sessions (delete t (sessions db)) db)
      | None => (Ok m, db)
      end
    else
      (Ok m,
       {| rows := filter (fun r => same_row r m = false) (rows db);
          sessions := sessions db;
          next_id := next_id db; issued := issued db; now := now db |}).

Definition ops : ModelOps Db Obj unit :=
  {| model_id := o_id;
     model_bindSDK := fun Warp m =>
       {| o_class := o_class m; o_id := o_id m;
          o_keys := o_keys m; o_sdk := Warp |};
     model_save := save;
     model_destroy := destroy;
     model_toPointerJSON := fun m =>
       match o_id m with
       | Some id => JPointer (o_class m) id
       | None => JUndefined
       end |}.

Definition class (name : string) : ModelClass Db Obj :=
  {| mc_new := fun args =>
       Ok {| o_class := name; o_id := a_id args;
             o_keys := default ∅ (a_keys args); o_sdk := None |};
     mc_instanceof := fun m => bool_decide (o_class m = name);
     mc_find := fun q db =>
       (Ok (take (Z.to_nat (q_limit q))
              (drop (Z.to_nat (q_skip q))
                 (filter (fun r => o_class r = name) (rows db)))), db);
     mc_getById := fun q db =>
       (Ok (head (filter
              (fun r => o_class r = name ∧ o_id r = Some (g_id q))
              (rows db))), db);
     mc_first := fun q db =>
       (Ok (head (filter
              (fun r => o_class r = name ∧ o_id r = Some (g_id q))
              (rows db))), db) |}.

(** `resolveToken`: the session of the token, while it is not revoked. *)
Definition resolveToken (token : string) (db : Db) : option Obj :=
  match sessions db !! token with
  | Some s =>
      match o_keys s !! "revoked_at" with
      | Some (JNumber t) => if now db <? t then Some s else None
      | _ => None
      end
  | None => None
  end.

Definition sessionClass : SessionClass Db Obj :=
  {| sc_class := class "session";
     userKey := "user";
     originKey := "origin";
     sessionTokenKey := "session_token";
     revokedAtKey := "revoked_at";
     getFromToken := fun token db => (Ok (sessions db !! token), db) |}.

Definition has_key (m : Obj) (key : string) (v : option string) : bool :=
  match v with
  | Some s => bool_decide (o_keys m !! key = Some (JString s))
  | None => false
  end.

(** `authenticate`: exactly one user whose username or email matches, and
    whose password matches; nothing otherwise. *)
Definition verify (c : Credentials) : Effect Db (option Obj) :=
  fun db =>
    match filter (fun r => o_class r = "user" ∧
                    (has_key r "username" (c_username c) = true ∨
                     has_key r "email" (c_email c) = true)) (rows db) with
    | [u] =>
        if has_key u "password" (Some (c_password c))
        then (Ok (Some u), db) else (Ok None, db)
    | _ => (Ok None, db)
    end.

Definition newToken (user : Obj) : Effect Db JsValue :=
  fun db =>
    (Ok (JString ("token-" +:+ pretty (issued db))),
     {| rows := rows db; sessions := sessions db;
        next_id := next_id db; issued := issued db + 1; now := now db |}).

Definition revocationDate : Effect Db JsValue :=
  fun db => (Ok (JNumber (now db + time_to_live)), db).

Definition registered : list string := ["post"; "comment"].

Definition api : WarpServer Db Obj :=
  {| parseSubqueries := fun w => Ok w;
     auth_user := class "user";
     auth_session := sessionClass;
     authenticate := verify;
     createSessionToken := newToken;
     getRevocationDate := revocationDate;
     models_get := fun name =>
       if bool_decide (name ∈ registered) then Ok (class name)
       else Throw (newError 110 ("Model `" +:+ name +:+ "` not found")) |}.

Definition newConstraintMap (w : WhereType) : Outcome ConstraintMap :=
  Ok {| constraints := default ∅ w |}.

Definition user (id : Z) (username email password : string) : Obj :=
  {| o_class := "user"; o_id := Some id;
     o_keys := <["password" := JString password]>
                 (<["email" := JString email]>
                    (<["username" := JString username]> ∅));
     o_sdk := None |}.

Definition alice : Obj := user 7 "alice" "alice@example.com" "wonderland".
Definition bob : Obj := user 9 "bob" "bob@example.com" "builder".

Definition db0 : Db :=
  {| rows := [alice; bob]; sessions := ∅;
     next_id := 10; issued := 0%N; now := 1000 |}.

Definition world0 : World Db Obj := {| store := db0; trace := [] |}.

Definition anonymous : Metadata := {| isMaster := false; client := JString "web" |}.
Definition master : Metadata := {| isMaster := true; client := JString "admin" |}.

(** An error as the storage driver raises it. *)
Definition raw_database_error : Error :=
  {| code := Some (DatabaseError codes);
     message := "ER_NO_SUCH_TABLE: no table post in schema warp" |}.

(** The session of alice, logged in from the client ["web"]. *)
Definition alice_session : Obj :=
  {| o_class := "session"; o_id := Some 10;
     o_keys :=
       UserController.session_keys sessionClass
         (JPointer "user" 7) (JString "web") (JString "token-0")
         (JNumber 4600);
     o_sdk := None |}.

(** The store once alice has logged in. *)
Definition db_logged_in : Db :=
  set_sessions {[ "token-0" := alice_session ]} db0.

End Ref.

(** ** Vocabulary of the properties *)

Section Vocabulary.

Context {Store Model : Type}.

(** The value [authenticate] answered is no instance of the user class. *)
Definition not_a_user (api : WarpServer Store Model)
    (answer : option Model) : Prop :=
  match answer with
  | None => True
  | Some value => mc_instanceof (auth_user api) value = false
  end.

(** A pagination field [v] of the query, for the parameter [x] of the
    request and the default [d]: the supplied number when it is not [0],
    the default when the parameter is omitted or [0]. *)
Definition supplied_or_default (x : option Z) (d v : Z) : Prop :=
  (forall n, x = Some n -> n <> 0 -> v = n) /\
  (x = None \/ x = Some 0 -> v = d).

(** The four key names of a session class are pairwise distinct. *)
Definition distinct_keys (sessionClass : SessionClass Store Model) : Prop :=
  NoDup [userKey sessionClass; originKey sessionClass;
         sessionTokenKey sessionClass; revokedAtKey sessionClass].

(** The reading of the pagination defaults that takes every supplied
    number as it is: [v] is the supplied number, and the default only
    when the parameter is omitted. *)
Definition supplied_else_default (x : option Z) (d v : Z) : Prop :=
  match x with
  | Some n => v = n
  | None => v = d
  end.

(** Every stored session is of the session class and sits under its own
    token. *)
Definition sessions_by_token (db : Ref.Db) : Prop :=
  forall token session,
    Ref.sessions db !! token = Some session ->
    Ref.o_class session = "session" /\ Ref.token_of session = Some token.

End Vocabulary.

(** * More of the sources *)

(** ** Reading a trace: requests that only read *)

Section ReadOnlyTraces.

Context {Model : Type}.

(** No [save] and no [destroy] among the events. *)
Fixpoint no_write (tr : list (Event Model)) : bool :=
  match tr with
  | [] => true
  | EvSave _ :: _ | EvDestroy _ :: _ => false
  | _ :: tr => no_write tr
  end.

(** The queries that the trace hands to [modelClass.find]. *)
Fixpoint queries_of (tr : list (Event Model)) : list Query :=
  match tr with
  | [] => []
  | EvFind q :: tr => q :: queries_of tr
  | _ :: tr => queries_of tr
  end.

End ReadOnlyTraces.

(** ** The function controller *)

Module FunctionController.
Section Methods.

Context {Store Model FunctionType Result : Type}.

(** [this.api.functions]: the registry of functions. [get] answers the
    function registered under a name, or throws; [run] runs it. *)
Record Functions := {
  functions_get : string -> Outcome FunctionType;
  functions_run : FunctionType -> Keys -> option Model -> Effect Store Result
}.

Variable functions : Functions.

(** Running a function is a call against the store that is not among the
    events of [Event]: the store is threaded, the trace stays. *)
Definition run (user : option Model) (functionName : string)
    (keys : option Keys) : M Store Model Result :=
  (* [keys = {}] *)
  let keys := default ∅ keys in
  (* Get function *)
  let! functionType := lift (functions_get functions functionName) in
  (* Run the function; [user || undefined] *)
  fun w =>
    let '(result, s) := functions_run functions functionType keys user (store w) in
    (* Return the result *)
    (result, {| store := s; trace := trace w |}).

End Methods.

Arguments Functions : clear implicits.

End FunctionController.

(** ** The router of the class routes *)

(** The handlers that [classes(api)] registers for [POST], [PUT] and
    [DELETE].  A handler runs the route function inside [try]; it stores
    the model on the request and calls [api.response.success], or logs
    the error with [api._log.error] and calls [api.response.error]. *)
Module Router.
Section Handlers.

Context {Store Model SDK : Type}.

(** A value held by a property of the request object. *)
Inductive ReqValue :=
| ReqModel (model : Model)
| ReqOther (value : JsValue).

(** What a handler leaves: the reply, and the lines handed to the logger
    (the error and the message). *)
Inductive Answer :=
| Succeeded (reply : Response.Reply (Response.ResultBody (option ReqValue)))
| Failed (reply : Response.Reply Response.ErrorBody).

Record Handled := {
  answer : Answer;
  logged : list (Error * string)
}.

(** [Error.Code] and the [status] getter of errors; [customResponse] of
    [api.response]; the name [InternalKeys.Middleware.Result] under which
    [Response.success] reads the result; the instance methods of models. *)
Variable Code : ErrorCodes.
Variable status : Error -> option Z.
Variable customResponse : bool.
Variable ResultKey : string.
Variable ops : ModelOps Store Model SDK.

(** [req.result = model; api.response.success(req, res, next)], on a
    request whose properties are [req]. *)
Definition succeed (req : gmap string ReqValue) (model : Model) : Handled :=
  let req := <["result" := ReqModel model]> req in
  {| answer := Succeeded (Response.success customResponse (req !! ResultKey));
     logged := [] |}.

(** [router.post('/classes/:className', ...)] *)
Definition post_class (api : WarpServer Store Model)
    (req : gmap string ReqValue) (metadata : Metadata)
    (currentUser : option Model) (className : string) (keys : Keys)
    : World Store Model -> Handled * World Store Model :=
  fun w =>
    match Classes.create ops api metadata currentUser className keys w with
    | (Ok model, w) =>
        (* Return response *)
        (succeed req model, w)
    | (Throw err, w) =>
        ({| answer := Failed (Response.error Code status customResponse err);
            logged := [(err, "Could not create the object for `" +:+ className
                               +:+ "`: " +:+ message err)] |}, w)
    end.

(** [router.put('/classes/:className/:id', ...)] *)
Definition put_class (api : WarpServer Store Model)
    (req : gmap string ReqValue) (metadata : Metadata)
    (currentUser : option Model) (className : string) (id : Z) (keys : Keys)
    : World Store Model -> Handled * World Store Model :=
  fun w =>
    match Classes.update ops api metadata currentUser className keys id w with
    | (Ok model, w) =>
        (* Return response *)
        (succeed req model, w)
    | (Throw err, w) =>
        ({| answer := Failed (Response.error Code status customResponse err);
            logged := [(err, "Could not update the object for `" +:+ className
                               +:+ "`: " +:+ message err)] |}, w)
    end.

(** [router.delete('/classes/:className/:id', ...)] *)
Definition delete_class (api : WarpServer Store Model)
    (req : gmap string ReqValue) (metadata : Metadata)
    (currentUser : option Model) (className : string) (id : Z)
    : World Store Model -> Handled * World Store Model :=
  fun w =>
    match Classes.destroy ops api metadata currentUser className id w with
    | (Ok model, w) =>
        (* Return response *)
        (succeed req model, w)
    | (Throw err, w) =>
        ({| answer := Failed (Response.error Code status customResponse err);
            logged := [(err, "Could not destroy the object for `" +:+ className
                               +:+ "`: " +:+ message err)] |}, w)
    end.

End Handlers.

Arguments ReqValue : clear implicits.
Arguments Answer : clear implicits.
Arguments Handled : clear implicits.

End Router.

(** ** A server whose collaborators fail *)

(** Instances on which the failure paths of the controllers run: a
    constructor that rejects a key bag with the key ["id"] and an id that
    is not positive, a where-parser and a constraint map that reject the
    field ["$bad"], a storage driver
    that is down, and a registry of functions with the single function
    ["echo"]. *)
Module Faulty.

Definition invalid_key : Error :=
  {| code := Some 104; message := "The key `id` is reserved" |}.

Definition invalid_where : Error :=
  {| code := Some 101; message := "Invalid constraint on `$bad`" |}.

Definition driver_down : Error :=
  {| code := Some (DatabaseError Ref.codes);
     message := "ECONNREFUSED 127.0.0.1:3306" |}.

Definition not_found (name : string) : Error :=
  newError 110 ("Model `" +:+ name +:+ "` not found").

Definition down {A} : Effect Ref.Db A := fun db => (Throw driver_down, db).

Definition invalid_id : Error :=
  {| code := Some 104; message := "The id must be a positive number" |}.

(** A class whose constructor rejects the key ["id"] and an id that is
    not positive. *)
Definition strict_class (name : string) : ModelClass Ref.Db Ref.Obj :=
  {| mc_new := fun args =>
       match default ∅ (a_keys args) !! "id", a_id args with
       | Some _, _ => Throw invalid_key
       | None, Some id =>
           if id <=? 0 then Throw invalid_id else mc_new (Ref.class name) args
       | None, None => mc_new (Ref.class name) args
       end;
     mc_instanceof := mc_instanceof (Ref.class name);
     mc_find := mc_find (Ref.class name);
     mc_getById := mc_getById (Ref.class name);
     mc_first := mc_first (Ref.class name) |}.

Definition reject_bad (w : WhereType) : Outcome WhereType :=
  match default ∅ w !! "$bad" with
  | Some _ => Throw invalid_where
  | None => Ok w
  end.

Definition strict_map (w : WhereType) : Outcome ConstraintMap :=
  match reject_bad w with
  | Ok w => Ref.newConstraintMap w
  | Throw e => Throw e
  end.

(** The in-memory server with the strict classes and the strict parser. *)
Definition strict_api : WarpServer Ref.Db Ref.Obj :=
  {| parseSubqueries := reject_bad;
     auth_user := strict_class "user";
     auth_session := Ref.sessionClass;
     authenticate := authenticate Ref.api;
     createSessionToken := createSessionToken Ref.api;
     getRevocationDate := getRevocationDate Ref.api;
     models_get := fun name =>
       if bool_decide (name ∈ Ref.registered) then Ok (strict_class name)
       else Throw (not_found name) |}.

(** The in-memory server whose token generator is down. *)
Definition tokenless_api : WarpServer Ref.Db Ref.Obj :=
  {| parseSubqueries := parseSubqueries Ref.api;
     auth_user := auth_user Ref.api;
     auth_session := auth_session Ref.api;
     authenticate := authenticate Ref.api;
     createSessionToken := fun _ => down;
     getRevocationDate := getRevocationDate Ref.api;
     models_get := models_get Ref.api |}.

(** Model methods whose [save] and [destroy] meet a driver that is down. *)
Definition down_ops : ModelOps Ref.Db Ref.Obj unit :=
  {| model_id := model_id Ref.ops;
     model_bindSDK := model_bindSDK Ref.ops;
     model_save := fun _ => down;
     model_destroy := fun _ => down;
     model_toPointerJSON := model_toPointerJSON Ref.ops |}.

Definition bad_where : WhereType :=
  Some {[ "$bad" := {[ "eq" := JNumber 1 ]} ]}.

Definition echo : FunctionController.Functions Ref.Db Ref.Obj unit Keys :=
  {| FunctionController.functions_get := fun name =>
       if bool_decide (name = "echo") then Ok tt
       else Throw (newError 111 ("Function `" +:+ name +:+ "` not found"));
     FunctionController.functions_run := fun _ keys _ db => (Ok keys, db) |}.

End Faulty.

(** * Properties *)

(** Unfolds the operations of the request monad. *)
Ltac run_request :=
  unfold bind, authorize, lift, call, record, ret, throw.

(** ** The request monad *)

Section MonadLaws.

Context {Store Model : Type}.

Implicit Types w : World Store Model.

Lemma bind_ret_l {A B} (a : A) (k : A -> M Store Model B) w :
  bind (ret a) k w = k a w.
Proof. reflexivity. Qed.

Lemma bind_throw_l {A B} (e : Error) (k : A -> M Store Model B) w :
  bind (throw e) k w = (Throw e, w).
Proof. reflexivity. Qed.

Lemma bind_assoc {A B C} (c : M Store Model A)
    (k : A -> M Store Model B) (h : B -> M Store Model C) w :
  bind (bind c k) h w = bind c (fun a => bind (k a) h) w.
Proof. unfold bind. destruct (c w) as [[a|e] w']; reflexivity. Qed.

(** A denial stops the request: nothing that follows it runs. *)
Lemma authorize_denied {B} (e : Error) (k : unit -> M Store Model B) w :
  bind (authorize false e) k w
    = (Throw e, {| store := store w; trace := trace w ++ [EvAuthorize false] |}).
Proof. reflexivity. Qed.

End MonadLaws.

(** ** The user controller *)

Section UserProperties.

Context {Store Model SDK : Type}.

Variable Code : ErrorCodes.
Variable ops : ModelOps Store Model SDK.
Variable api : WarpServer Store Model.
Variable numberToString : Z -> string.

Implicit Types (w : World Store Model) (Warp : option SDK).

(** C7. [me] fails with [InvalidSessionToken] when the request has no
    current user, and otherwise returns that very user; the world is left
    as it was in both cases. *)
Theorem me_returns_current_user w :
  UserController.me Code None w
    = (Throw (newError (InvalidSessionToken Code) "Session does not exist"),
       w)
  /\ forall currentUser : Model,
       UserController.me Code (Some currentUser) w = (Ok currentUser, w).
Proof. split; [reflexivity | intros u; reflexivity]. Qed.

(** C10. [get]: when [getById] finds no record for the id, the error has
    the code [ForbdiddenOperation] and its message spells out the id, as
    the template literal prints that number; a record that is found is
    returned as it is. *)
Theorem get_missing_user_is_forbidden id select include w s' :
  let query :=
    {| g_select := js_or_array select [];
       g_include := js_or_array include [];
       g_id := id |} in
  let w' := {| store := s'; trace := trace w ++ [EvGetById query] |} in
  (mc_getById (auth_user api) query (store w) = (Ok None, s') ->
   UserController.get Code api numberToString id select include w
     = (Throw {| code := Some (ForbdiddenOperation Code);
                 message :=
                   "User with id `" +:+ numberToString id +:+ "` not found" |},
        w'))
  /\ (forall model,
        mc_getById (auth_user api) query (store w) = (Ok (Some model), s') ->
        UserController.get Code api numberToString id select include w
          = (Ok model, w')).
Proof.
  intros query w'; split; [intros H | intros model H];
    unfold UserController.get; run_request; fold query; rewrite H; reflexivity.
Qed.

(** C4. With a current user on the request, [create] and [logIn] both
    fail with [ForbdiddenOperation] at their first step: the store is the
    one the request started with, and no call (authenticate, token,
    save) was issued. *)
Theorem create_and_logIn_forbidden_with_session
    Warp metadata (currentUser : Model) keys username email password w :
  let denied :=
    {| store := store w; trace := trace w ++ [EvAuthorize false] |} in
  UserController.create Code ops api Warp metadata (Some currentUser) keys w
    = (Throw (newError (ForbdiddenOperation Code)
         "Users cannot be created using an active session. Please log out."),
       denied)
  /\ UserController.logIn Code ops api Warp metadata (Some currentUser)
       username email password w
    = (Throw (newError (ForbdiddenOperation Code)
         "Cannot log in using an active session. Please log out."),
       denied).
Proof. split; reflexivity. Qed.

(** C3. [update] and [destroy] of the user with id [id].  A caller that
    is not master and is anonymous, or is a user with another id, gets
    [ForbdiddenOperation]; the store is untouched and no [save] or
    [destroy] is issued.  The owner and a master caller pass the
    condition: the model is constructed and [save] (resp. [destroy]) is
    issued on it. *)
Theorem user_update_destroy_owner_or_master
    Warp metadata (currentUser : option Model) keys id w :
  let denied :=
    {| store := store w; trace := trace w ++ [EvAuthorize false] |} in
  let issued (ev : Event Model) (r : Outcome Model * Store) :=
    (fst r,
     {| store := snd r; trace := trace w ++ [EvAuthorize true; ev] |}) in
  (isMaster metadata = false ->
   (currentUser = None \/
    exists user, currentUser = Some user /\ model_id ops user <> Some id) ->
   UserController.update Code ops api Warp metadata currentUser keys id w
     = (Throw (newError (ForbdiddenOperation Code)
          "User details can only be edited by their owner or via master"),
        denied)
   /\ UserController.destroy Code ops api Warp metadata currentUser id w
     = (Throw (newError (ForbdiddenOperation Code)
          "User details can only be destroyed by their owner or via master"),
        denied))
  /\ (isMaster metadata = true \/
      (exists user, currentUser = Some user /\ model_id ops user = Some id) ->
      (forall model,
         mc_new (auth_user api)
           {| a_metadata := metadata; a_currentUser := currentUser;
              a_keys := Some keys; a_id := Some id |} = Ok model ->
         let model := model_bindSDK ops Warp model in
         UserController.update Code ops api Warp metadata currentUser keys id w
           = issued (EvSave model) (model_save ops model (store w)))
      /\ (forall model,
         mc_new (auth_user api)
           {| a_metadata := metadata; a_currentUser := currentUser;
              a_keys := None; a_id := Some id |} = Ok model ->
         let model := model_bindSDK ops Warp model in
         UserController.destroy Code ops api Warp metadata currentUser id w
           = issued (EvDestroy model) (model_destroy ops model (store w)))).
Proof.
  intros denied issued; split.
  - intros Hmaster Huser.
    assert (UserController.not_owner_nor_master ops metadata currentUser id
            = true) as Hguard.
    { unfold UserController.not_owner_nor_master. rewrite Hmaster.
      destruct Huser as [-> | (user & -> & Hid)]; [reflexivity|].
      simpl. rewrite bool_decide_eq_false_2; [reflexivity | exact Hid]. }
    unfold UserController.update, UserController.destroy; run_request.
    rewrite Hguard. split; reflexivity.
  - intros Hallowed.
    assert (UserController.not_owner_nor_master ops metadata currentUser id
            = false) as Hguard.
    { unfold UserController.not_owner_nor_master.
      destruct Hallowed as [-> | (user & -> & Hid)]; [reflexivity|].
      rewrite bool_decide_eq_true_2; [|exact Hid].
      simpl. apply andb_false_r. }
    split; intros model Hnew; cbn zeta;
      unfold UserController.update, UserController.destroy, bind, authorize,
        lift, call, record, issued;
      rewrite Hguard; simpl; rewrite Hnew; simpl;
      [destruct (model_save ops _ (store w)) | destruct (model_destroy ops _ (store w))];
      simpl; rewrite <- app_assoc; reflexivity.
Qed.

(** C2. Two login attempts, by anonymous callers, for which [authenticate]
    answers something that is no user: both are rejected with one and the
    same error, code [InvalidCredentials] and message
    ["Invalid username/password"], whatever the credentials, the stores
    and the reason [authenticate] had. *)
Theorem logIn_failures_indistinguishable
    Warp1 metadata1 username1 email1 password1 w1 answer1 s1
    Warp2 metadata2 username2 email2 password2 w2 answer2 s2 :
  authenticate api
    {| c_username := username1; c_email := email1; c_password := password1 |}
    (store w1) = (Ok answer1, s1) ->
  not_a_user api answer1 ->
  authenticate api
    {| c_username := username2; c_email := email2; c_password := password2 |}
    (store w2) = (Ok answer2, s2) ->
  not_a_user api answer2 ->
  let run1 := UserController.logIn Code ops api Warp1 metadata1 None
                username1 email1 password1 w1 in
  let run2 := UserController.logIn Code ops api Warp2 metadata2 None
                username2 email2 password2 w2 in
  fst run1
    = Throw {| code := Some (InvalidCredentials Code);
               message := "Invalid username/password" |}
  /\ fst run2 = fst run1.
Proof.
  intros H1 N1 H2 N2.
  assert (forall Warp metadata username email password w answer s,
    authenticate api
      {| c_username := username; c_email := email; c_password := password |}
      (store w) = (Ok answer, s) ->
    not_a_user api answer ->
    fst (UserController.logIn Code ops api Warp metadata None
           username email password w)
      = Throw {| code := Some (InvalidCredentials Code);
                 message := "Invalid username/password" |}) as Hone.
  { intros Warp metadata username email password w answer s H N.
    unfold UserController.logIn; run_request; simpl.
    rewrite H. destruct answer as [value|]; [|reflexivity].
    simpl in N. rewrite N. reflexivity. }
  cbn zeta. rewrite (Hone _ _ _ _ _ _ _ _ H1 N1), (Hone _ _ _ _ _ _ _ _ H2 N2).
  split; reflexivity.
Qed.

(** C5. A successful [logIn]: the key bag of the new session holds the
    pointer of the authenticated user under the user key, the client of
    the request under the origin key, the token that
    [createSessionToken] made for that user under the session-token key
    and the date [getRevocationDate] answered under the revoked-at key,
    and nothing else; the session constructed from it is saved, and what
    [save] leaves is what [logIn] returns. *)
Theorem logIn_binds_session
    Warp metadata username email password w user s1 token s2 revokedAt s3 :
  let sessionClass := auth_session api in
  let credentials :=
    {| c_username := username; c_email := email; c_password := password |} in
  authenticate api credentials (store w) = (Ok (Some user), s1) ->
  mc_instanceof (auth_user api) user = true ->
  createSessionToken api user s1 = (Ok token, s2) ->
  getRevocationDate api s2 = (Ok revokedAt, s3) ->
  distinct_keys sessionClass ->
  exists keys : Keys,
    keys !! userKey sessionClass = Some (model_toPointerJSON ops user)
    /\ keys !! originKey sessionClass = Some (client metadata)
    /\ keys !! sessionTokenKey sessionClass = Some token
    /\ keys !! revokedAtKey sessionClass = Some revokedAt
    /\ dom keys = {[ userKey sessionClass; originKey sessionClass;
                     sessionTokenKey sessionClass; revokedAtKey sessionClass ]}
    /\ forall session saved s4,
         mc_new sessionClass
           {| a_metadata := metadata; a_currentUser := None;
              a_keys := Some keys; a_id := None |} = Ok session ->
         model_save ops (model_bindSDK ops Warp session) s3 = (Ok saved, s4) ->
         UserController.logIn Code ops api Warp metadata None
           username email password w
           = (Ok saved,
              {| store := s4;
                 trace := trace w ++
                   [EvAuthorize true; EvAuthenticate credentials;
                    EvCreateSessionToken user; EvGetRevocationDate;
                    EvSave (model_bindSDK ops Warp session)] |}).
Proof.
  intros sessionClass credentials Hauth Hinst Htoken Hdate Hkeys.
  exists (UserController.session_keys sessionClass
            (model_toPointerJSON ops user) (client metadata) token revokedAt).
  unfold distinct_keys in Hkeys. fold sessionClass in Hkeys.
  rewrite !NoDup_cons, !not_elem_of_cons in Hkeys.
  destruct Hkeys as ((Huo & Hut & Hur & _) & (Hot & Hor & _) & (Htr & _) & _).
  unfold UserController.session_keys.
  split; [by simplify_map_eq|]. split; [by simplify_map_eq|].
  split; [by simplify_map_eq|]. split; [by simplify_map_eq|].
  split.
  { rewrite !dom_insert_L, dom_empty_L. apply set_eq. intros key.
    rewrite !elem_of_union, elem_of_empty, !elem_of_singleton. tauto. }
  intros session saved s4 Hnew Hsave.
  unfold UserController.logIn; run_request.
  fold sessionClass credentials. simpl.
  rewrite Hauth, Hinst. simpl. rewrite Htoken. simpl. rewrite Hdate. simpl.
  unfold UserController.session_keys. rewrite Hnew. simpl. rewrite Hsave.
  rewrite <- !app_assoc. reflexivity.
Qed.

End UserProperties.

(** ** Query assembly *)

Section FindProperties.

Context {Store Model : Type}.

Variable Defaults : QueryDefaults.
Variable newConstraintMap : WhereType -> Outcome ConstraintMap.
Variable api : WarpServer Store Model.

Lemma js_or_number_supplied_or_default x d :
  supplied_or_default x d (js_or_number x d).
Proof.
  split.
  - intros n -> Hn. simpl. destruct (Z.eqb_spec n 0); [contradiction | reflexivity].
  - intros [-> | ->]; reflexivity.
Qed.

(** C8, as the code has it. Both [find] functions hand [modelClass.find]
    a query whose [skip] and [limit] are the supplied numbers when these
    are not [0], and the defaults of [Defaults.Query] when the parameter
    is omitted or is [0]. *)
Theorem find_skip_limit_defaults
    className select include where_ sort skip limit
    (w : World Store Model) where' constraintMap :
  parseSubqueries api where_ = Ok where' ->
  newConstraintMap where' = Ok constraintMap ->
  exists query,
    supplied_or_default skip (Skip Defaults) (q_skip query)
    /\ supplied_or_default limit (Limit Defaults) (q_limit query)
    /\ (let r := mc_find (auth_user api) query (store w) in
        UserController.find Defaults newConstraintMap api
          select include where_ sort skip limit w
        = (fst r, {| store := snd r; trace := trace w ++ [EvFind query] |}))
    /\ (forall modelClass,
          models_get api className = Ok modelClass ->
          let r := mc_find modelClass query (store w) in
          Classes.find Defaults newConstraintMap api className
            select include where_ sort skip limit w
          = (fst r, {| store := snd r; trace := trace w ++ [EvFind query] |})).
Proof.
  intros Hparse Hmap.
  eexists {| q_select := select; q_include := include;
             q_where := constraintMap;
             q_sort := js_or_array sort (Sort Defaults);
             q_skip := js_or_number skip (Skip Defaults);
             q_limit := js_or_number limit (Limit Defaults) |}.
  split; [apply js_or_number_supplied_or_default|].
  split; [apply js_or_number_supplied_or_default|].
  split; [|intros modelClass Hclass];
    unfold UserController.find, Classes.find; run_request;
    rewrite Hparse, Hmap; [|rewrite Hclass];
    match goal with |- context [mc_find ?c ?q ?s] =>
      destruct (mc_find c q s) end; reflexivity.
Qed.

End FindProperties.

(** ** Writes on named classes *)

Section ClassProperties.

Context {Store Model SDK : Type}.

Variable Code : ErrorCodes.
Variable ops : ModelOps Store Model SDK.
Variable api : WarpServer Store Model.

(** C1, as the code has it. [create], [update] and [destroy] of the class
    routes evaluate no authorization condition: once the class is
    resolved and the model constructed from the metadata, the current
    user, the keys and the id of the request, [save] (resp. [destroy]) is
    issued, whoever the caller is; it is the only event of the request. *)
Theorem class_writes_are_unconditional
    metadata (currentUser : option Model) className keys id
    (w : World Store Model) modelClass :
  models_get api className = Ok modelClass ->
  let issued (ev : Event Model) (r : Outcome Model * Store) :=
    (fst r, {| store := snd r; trace := trace w ++ [ev] |}) in
  (forall model,
     mc_new modelClass
       {| a_metadata := metadata; a_currentUser := currentUser;
          a_keys := Some keys; a_id := None |} = Ok model ->
     Classes.create ops api metadata currentUser className keys w
       = issued (EvSave model) (model_save ops model (store w)))
  /\ (forall model,
     mc_new modelClass
       {| a_metadata := metadata; a_currentUser := currentUser;
          a_keys := Some keys; a_id := Some id |} = Ok model ->
     Classes.update ops api metadata currentUser className keys id w
       = issued (EvSave model) (model_save ops model (store w)))
  /\ (forall model,
     mc_new modelClass
       {| a_metadata := metadata; a_currentUser := currentUser;
          a_keys := None; a_id := Some id |} = Ok model ->
     Classes.destroy ops api metadata currentUser className id w
       = issued (EvDestroy model) (model_destroy ops model (store w))).
Proof.
  intros Hclass issued.
  repeat split; intros model Hnew;
    unfold Classes.create, Classes.update, Classes.destroy, bind, lift, call,
      issued;
    rewrite Hclass, Hnew;
    match goal with |- context [?f ops model (store w)] =>
      destruct (f ops model (store w)) end; reflexivity.
Qed.

(** In the user controller every write does come after a condition that
    allowed it. *)
Lemma user_writes_are_authorized Warp metadata currentUser keys id s :
  writes_authorized false
    (events_of (UserController.create Code ops api Warp metadata
                  currentUser keys) s) = true
  /\ writes_authorized false
    (events_of (UserController.update Code ops api Warp metadata
                  currentUser keys id) s) = true
  /\ writes_authorized false
    (events_of (UserController.destroy Code ops api Warp metadata
                  currentUser id) s) = true.
Proof.
  repeat split;
    unfold events_of, UserController.create, UserController.update,
      UserController.destroy, bind, authorize, lift, call, record; simpl;
    match goal with |- context [if ?b then _ else _] => destruct b end;
    simpl; try reflexivity;
    match goal with |- context [mc_new ?c ?a] => destruct (mc_new c a) end;
    simpl; try reflexivity;
    match goal with |- context [?f ops ?m s] => destruct (f ops m s) end;
    reflexivity.
Qed.

End ClassProperties.

(** ** The response boundary *)

Section ResponseProperties.

Variable Code : ErrorCodes.
Variable status : Error -> option Z.

(** C9, as the code has it. Without a custom response, an error whose
    code is [DatabaseError] is answered with that code and the message
    ["Invalid query request"], and every other error with its own
    message (and [400] for a missing code). With a custom response the
    error is handed to the next handler as it is, message included. *)
Theorem error_reply_normalizes_database_errors (err : Error) :
  Response.error Code status true err = Response.Next (Some err)
  /\ (code err = Some (DatabaseError Code) ->
      Response.error Code status false err
        = Response.Json (js_or_number (status err) 400)
            {| Response.body_code := DatabaseError Code;
               Response.body_message := "Invalid query request" |})
  /\ (forall c, code err = Some c -> c <> DatabaseError Code ->
      Response.error Code status false err
        = Response.Json (js_or_number (status err) 400)
            {| Response.body_code := c;
               Response.body_message := message err |})
  /\ (code err = None ->
      Response.error Code status false err
        = Response.Json (js_or_number (status err) 400)
            {| Response.body_code := 400;
               Response.body_message := message err |}).
Proof.
  unfold Response.error. repeat split.
  - intros ->. rewrite Z.eqb_refl. reflexivity.
  - intros c -> Hc. destruct (Z.eqb_spec c (DatabaseError Code));
      [contradiction | reflexivity].
  - intros ->. reflexivity.
Qed.

End ResponseProperties.

(** ** Sessions of the in-memory server *)

Lemma sessions_by_token_db0 : sessions_by_token Ref.db0.
Proof. intros token session H. discriminate H. Qed.

Lemma save_keeps_sessions_by_token m db m' db' :
  sessions_by_token db ->
  Ref.save m db = (Ok m', db') ->
  sessions_by_token db'.
Proof.
  intros Hwf. unfold Ref.save.
  set (p := match Ref.o_id m with
            | Some _ => (m, db)
            | None => (Ref.with_id m (Ref.next_id db), Ref.fresh_id db)
            end).
  assert (sessions_by_token p.2) as Hp by (subst p; destruct (Ref.o_id m); exact Hwf).
  destruct p as [m1 db1]. simpl in Hp.
  case_bool_decide as Hclass.
  - destruct (Ref.token_of m1) as [t|] eqn:Ht; [|discriminate].
    intros [= <- <-]. intros token session. simpl.
    rewrite lookup_insert. case_decide as Heq.
    + intros [= <-]. subst. auto.
    + apply Hp.
  - intros [= <- <-]. exact Hp.
Qed.

Lemma destroy_keeps_sessions_by_token m db m' db' :
  sessions_by_token db ->
  Ref.destroy m db = (Ok m', db') ->
  sessions_by_token db'.
Proof.
  intros Hwf. unfold Ref.destroy.
  case_bool_decide as Hclass.
  - destruct (Ref.token_of m) as [t|]; intros [= <- <-]; [|exact Hwf].
    intros token session. simpl. rewrite lookup_delete.
    case_decide; [discriminate | apply Hwf].
  - intros [= <- <-]. exact Hwf.
Qed.

(** C6. [logOut].  When [getFromToken] finds no session, the error is
    [InvalidSessionToken] and no [destroy] is issued; when it finds one,
    [destroy] is issued on it and what [destroy] leaves is returned.  In
    the in-memory server, whose sessions sit under their tokens, the
    session found is deleted: looking the same token up afterwards, with
    [getFromToken] or with [resolveToken], finds no session. *)
Theorem logOut_destroys_the_session :
  (forall (Store Model SDK : Type) (Code : ErrorCodes)
          (ops : ModelOps Store Model SDK) (api : WarpServer Store Model)
          (Warp : option SDK) (sessionToken : string)
          (w : World Store Model) (s1 : Store),
     let looked_up :=
       {| store := s1; trace := trace w ++ [EvGetFromToken sessionToken] |} in
     (getFromToken (auth_session api) sessionToken (store w) = (Ok None, s1) ->
      UserController.logOut Code ops api Warp sessionToken w
        = (Throw (newError (InvalidSessionToken Code) "Session does not exist"),
           looked_up))
     /\ (forall session,
         getFromToken (auth_session api) sessionToken (store w)
           = (Ok (Some session), s1) ->
         let session := model_bindSDK ops Warp session in
         let r := model_destroy ops session s1 in
         UserController.logOut Code ops api Warp sessionToken w
           = (fst r,
              {| store := snd r;
                 trace := trace w ++
                   [EvGetFromToken sessionToken; EvDestroy session] |})))
  /\ (forall (Warp : option unit) (sessionToken : string)
            (w : World Ref.Db Ref.Obj) (session : Ref.Obj),
       sessions_by_token (store w) ->
       Ref.sessions (store w) !! sessionToken = Some session ->
       exists db',
         UserController.logOut Ref.codes Ref.ops Ref.api Warp sessionToken w
           = (Ok (model_bindSDK Ref.ops Warp session),
              {| store := db';
                 trace := trace w ++
                   [EvGetFromToken sessionToken;
                    EvDestroy (model_bindSDK Ref.ops Warp session)] |})
         /\ Ref.sessions db' = delete sessionToken (Ref.sessions (store w))
         /\ getFromToken (auth_session Ref.api) sessionToken db' = (Ok None, db')
         /\ Ref.resolveToken sessionToken db' = None).
Proof.
  split.
  - intros Store Model SDK Code ops api Warp sessionToken w s1 looked_up.
    split; [intros H | intros session H]; cbn zeta;
      unfold UserController.logOut; run_request; rewrite H; simpl.
    + reflexivity.
    + destruct (model_destroy ops _ s1). simpl.
      rewrite <- app_assoc. reflexivity.
  - intros Warp sessionToken w session Hwf Hfound.
    destruct (Hwf _ _ Hfound) as [Hclass Htoken].
    exists (Ref.set_sessions (delete sessionToken (Ref.sessions (store w)))
              (store w)).
    unfold UserController.logOut; run_request; simpl.
    rewrite Hfound. simpl. unfold Ref.destroy. simpl.
    rewrite Hclass. simpl.
    unfold Ref.token_of in *. simpl.
    destruct (Ref.o_keys session !! "session_token") as [[| |t|]|]; try discriminate.
    injection Htoken as ->. rewrite <- app_assoc. simpl.
    repeat split.
    + rewrite lookup_delete_eq. reflexivity.
    + unfold Ref.resolveToken. simpl. rewrite lookup_delete_eq. reflexivity.
Qed.

(** * The properties on the in-memory server *)

(** [me] of an anonymous request and of a request by alice. *)
Example me_anonymous_and_alice :
  fst (UserController.me Ref.codes None Ref.world0)
    = Throw {| code := Some 103; message := "Session does not exist" |}
  /\ UserController.me Ref.codes (Some Ref.alice) Ref.world0
    = (Ok Ref.alice, Ref.world0).
Proof. split; reflexivity. Qed.

(** [get] of the unknown ids 42 and [10 ^ 21], and of alice's id 7. *)
Lemma get_missing_user_is_forbidden_witness :
  fst (UserController.get Ref.codes Ref.api Ref.numberToString
         42 None None Ref.world0)
    = Throw {| code := Some 106; message := "User with id `42` not found" |}
  /\ fst (UserController.get Ref.codes Ref.api Ref.numberToString
            (10 ^ 21) None None Ref.world0)
    = Throw {| code := Some 106;
               message := "User with id `1e+21` not found" |}
  /\ fst (UserController.get Ref.codes Ref.api Ref.numberToString
            7 None None Ref.world0)
    = Ok Ref.alice.
Proof.
  split; [|split].
  - rewrite (proj1 (get_missing_user_is_forbidden
                      Ref.codes Ref.api Ref.numberToString
                      42 None None Ref.world0 Ref.db0));
      reflexivity.
  - rewrite (proj1 (get_missing_user_is_forbidden
                      Ref.codes Ref.api Ref.numberToString
                      (10 ^ 21) None None Ref.world0 Ref.db0));
      reflexivity.
  - rewrite (proj2 (get_missing_user_is_forbidden
                      Ref.codes Ref.api Ref.numberToString
                      7 None None Ref.world0 Ref.db0)
               Ref.alice);
      reflexivity.
Defined.

(** Bob (id 9) may not update or destroy alice (id 7); alice may, and so
    may an anonymous master caller. *)
Lemma user_update_destroy_owner_or_master_witness :
  (fst (UserController.update Ref.codes Ref.ops Ref.api None Ref.anonymous
          (Some Ref.bob) ∅ 7 Ref.world0)
     = Throw {| code := Some 106;
                message := "User details can only be edited by their owner or via master" |}
   /\ snd (UserController.destroy Ref.codes Ref.ops Ref.api None Ref.anonymous
          (Some Ref.bob) 7 Ref.world0)
     = {| store := Ref.db0; trace := [EvAuthorize false] |})
  /\ trace (snd (UserController.update Ref.codes Ref.ops Ref.api None
                   Ref.anonymous (Some Ref.alice) ∅ 7 Ref.world0))
     = [EvAuthorize true;
        EvSave {| Ref.o_class := "user"; Ref.o_id := Some 7;
                  Ref.o_keys := ∅; Ref.o_sdk := None |}]
  /\ trace (snd (UserController.destroy Ref.codes Ref.ops Ref.api None
                   Ref.master None 7 Ref.world0))
     = [EvAuthorize true;
        EvDestroy {| Ref.o_class := "user"; Ref.o_id := Some 7;
                     Ref.o_keys := ∅; Ref.o_sdk := None |}].
Proof.
  split; [|split].
  - destruct (proj1 (user_update_destroy_owner_or_master
                       Ref.codes Ref.ops Ref.api None Ref.anonymous
                       (Some Ref.bob) ∅ 7 Ref.world0)) as [Hu Hd].
    + reflexivity.
    + right. exists Ref.bob. split; [reflexivity | discriminate].
    + rewrite Hu, Hd. split; reflexivity.
  - destruct (proj2 (user_update_destroy_owner_or_master
                       Ref.codes Ref.ops Ref.api None Ref.anonymous
                       (Some Ref.alice) ∅ 7 Ref.world0)) as [Hu _].
    + right. exists Ref.alice. split; reflexivity.
    + rewrite (Hu _ eq_refl). reflexivity.
  - destruct (proj2 (user_update_destroy_owner_or_master
                       Ref.codes Ref.ops Ref.api None Ref.master
                       None ∅ 7 Ref.world0)) as [_ Hd].
    + left. reflexivity.
    + rewrite (Hd _ eq_refl). reflexivity.
Defined.

(** A login for an identifier nobody has and a login for alice with a
    wrong password are rejected alike. *)
Lemma logIn_failures_indistinguishable_witness :
  fst (UserController.logIn Ref.codes Ref.ops Ref.api None Ref.anonymous None
         (Some "nobody") None "wonderland" Ref.world0)
    = Throw {| code := Some 102; message := "Invalid username/password" |}
  /\ fst (UserController.logIn Ref.codes Ref.ops Ref.api None Ref.anonymous None
         (Some "alice") None "looking-glass" Ref.world0)
    = fst (UserController.logIn Ref.codes Ref.ops Ref.api None Ref.anonymous None
         (Some "nobody") None "wonderland" Ref.world0).
Proof.
  apply (logIn_failures_indistinguishable Ref.codes Ref.ops Ref.api
           None Ref.anonymous (Some "nobody") None "wonderland"
           Ref.world0 None Ref.db0
           None Ref.anonymous (Some "alice") None "looking-glass"
           Ref.world0 None Ref.db0);
    reflexivity || exact I.
Defined.

Lemma distinct_keys_sessionClass : distinct_keys Ref.sessionClass.
Proof. unfold distinct_keys. simpl. compute_done. Qed.

(** Alice logs in from the client ["web"]: the session binds her pointer,
    the client, the first token and the date one time-to-live from now. *)
Lemma logIn_binds_session_witness :
  exists keys : Keys,
    (keys !! "user" = Some (JPointer "user" 7)
     /\ keys !! "origin" = Some (JString "web")
     /\ keys !! "session_token" = Some (JString "token-0")
     /\ keys !! "revoked_at" = Some (JNumber 4600)
     /\ dom keys = {[ "user"; "origin"; "session_token"; "revoked_at" ]})
    /\ fst (UserController.logIn Ref.codes Ref.ops Ref.api None Ref.anonymous
              None (Some "alice") None "wonderland" Ref.world0)
       = Ok {| Ref.o_class := "session"; Ref.o_id := Some 10;
               Ref.o_keys := keys; Ref.o_sdk := None |}.
Proof.
  pose (db1 := snd (Ref.newToken Ref.alice Ref.db0)).
  destruct (logIn_binds_session Ref.codes Ref.ops Ref.api
              None Ref.anonymous (Some "alice") None "wonderland" Ref.world0
              Ref.alice Ref.db0 (JString "token-0") db1 (JNumber 4600) db1
              eq_refl eq_refl eq_refl eq_refl distinct_keys_sessionClass)
    as (keys & Hu & Ho & Ht & Hr & Hd & Hrun).
  exists keys. split; [repeat split; assumption|].
  erewrite Hrun; [reflexivity | reflexivity |].
  unfold Ref.ops, model_save, model_bindSDK, Ref.save, Ref.token_of. simpl.
  simpl in Ht. rewrite Ht. reflexivity.
Defined.

(** [find] with no pagination parameter, and with [skip] 5 only. *)
Lemma find_skip_limit_defaults_witness :
  (exists query,
     q_skip query = 0 /\ q_limit query = 100
     /\ events_of (UserController.find (Ref.defaults 100) Ref.newConstraintMap
                     Ref.api None None None None None None) Ref.db0
        = [EvFind query])
  /\ (exists query,
     q_skip query = 5 /\ q_limit query = 100
     /\ events_of (Classes.find (Ref.defaults 100) Ref.newConstraintMap
                     Ref.api "post" None None None None (Some 5) None) Ref.db0
        = [EvFind query]).
Proof.
  split.
  - destruct (find_skip_limit_defaults (Ref.defaults 100) Ref.newConstraintMap
                Ref.api "post" None None None None None None Ref.world0
                None {| constraints := ∅ |} eq_refl eq_refl)
      as (query & [_ Hskip] & [_ Hlimit] & Hrun & _).
    exists query.
    split; [apply Hskip; left; reflexivity|].
    split; [apply Hlimit; left; reflexivity|].
    unfold events_of. fold Ref.world0. rewrite Hrun. reflexivity.
  - destruct (find_skip_limit_defaults (Ref.defaults 100) Ref.newConstraintMap
                Ref.api "post" None None None None (Some 5) None Ref.world0
                None {| constraints := ∅ |} eq_refl eq_refl)
      as (query & [Hskip _] & [_ Hlimit] & _ & Hrun).
    exists query.
    split; [apply (Hskip 5); [reflexivity | lia]|].
    split; [apply Hlimit; left; reflexivity|].
    unfold events_of. fold Ref.world0. rewrite (Hrun _ eq_refl). reflexivity.
Defined.

(** C8, as it is stated, fails for a supplied [limit] of [0]: the query
    that [find] hands on has the default limit, not the supplied one. *)
Lemma find_replaces_a_supplied_zero_limit :
  exists query,
    events_of (Classes.find (Ref.defaults 100) Ref.newConstraintMap
                 Ref.api "post" None None None None None (Some 0)) Ref.db0
      = [EvFind query]
    /\ events_of (UserController.find (Ref.defaults 100) Ref.newConstraintMap
                    Ref.api None None None None None (Some 0)) Ref.db0
      = [EvFind query]
    /\ q_limit query = 100
    /\ ~ supplied_else_default (Some 0) (Limit (Ref.defaults 100))
           (q_limit query).
Proof.
  eexists. split; [reflexivity|]. split; [reflexivity|].
  split; [reflexivity|]. simpl. discriminate.
Qed.

(** An anonymous caller without the master key creates, updates and
    destroys a post. *)
Lemma class_writes_are_unconditional_witness :
  events_of (Classes.create Ref.ops Ref.api Ref.anonymous None "post" ∅)
            Ref.db0
    = [EvSave {| Ref.o_class := "post"; Ref.o_id := None;
                 Ref.o_keys := ∅; Ref.o_sdk := None |}]
  /\ events_of (Classes.update Ref.ops Ref.api Ref.anonymous None "post" ∅ 7)
               Ref.db0
    = [EvSave {| Ref.o_class := "post"; Ref.o_id := Some 7;
                 Ref.o_keys := ∅; Ref.o_sdk := None |}]
  /\ events_of (Classes.destroy Ref.ops Ref.api Ref.anonymous None "post" 7)
               Ref.db0
    = [EvDestroy {| Ref.o_class := "post"; Ref.o_id := Some 7;
                    Ref.o_keys := ∅; Ref.o_sdk := None |}].
Proof.
  destruct (class_writes_are_unconditional Ref.ops Ref.api Ref.anonymous None
              "post" ∅ 7 Ref.world0 (Ref.class "post") eq_refl)
    as (Hcreate & Hupdate & Hdestroy).
  unfold events_of. fold Ref.world0.
  rewrite (Hcreate _ eq_refl), (Hupdate _ eq_refl), (Hdestroy _ eq_refl).
  repeat split.
Defined.

(** C1, as it is stated, fails on the class routes: the update of a post by
    an anonymous caller without the master key issues [save], and no
    authorization condition was evaluated before it. *)
Lemma class_update_saves_without_authorization :
  events_of (Classes.update Ref.ops Ref.api Ref.anonymous None "post" ∅ 7)
            Ref.db0
    = [EvSave {| Ref.o_class := "post"; Ref.o_id := Some 7;
                 Ref.o_keys := ∅; Ref.o_sdk := None |}]
  /\ writes_authorized false
       (events_of (Classes.update Ref.ops Ref.api Ref.anonymous None "post" ∅ 7)
                  Ref.db0)
     = false.
Proof. split; reflexivity. Qed.

(** The replies to a database error, to a forbidden operation and to an
    error without code, and the hand-over with a custom response. *)
Lemma error_reply_normalizes_database_errors_witness :
  Response.error Ref.codes (fun _ => Some 500) false Ref.raw_database_error
    = Response.Json 500
        {| Response.body_code := 206;
           Response.body_message := "Invalid query request" |}
  /\ Response.error Ref.codes (fun _ => None) false
       (newError 106 "Cannot log in using an active session. Please log out.")
    = Response.Json 400
        {| Response.body_code := 106;
           Response.body_message :=
             "Cannot log in using an active session. Please log out." |}
  /\ Response.error Ref.codes (fun _ => None) false
       {| code := None; message := "Unexpected token" |}
    = Response.Json 400
        {| Response.body_code := 400;
           Response.body_message := "Unexpected token" |}.
Proof.
  split; [|split].
  - apply (proj1 (proj2 (error_reply_normalizes_database_errors
                           Ref.codes (fun _ => Some 500) Ref.raw_database_error))).
    reflexivity.
  - apply (proj1 (proj2 (proj2 (error_reply_normalizes_database_errors
             Ref.codes (fun _ => None)
             (newError 106
                "Cannot log in using an active session. Please log out."))))
             106);
      [reflexivity | discriminate].
  - apply (proj2 (proj2 (proj2 (error_reply_normalizes_database_errors
             Ref.codes (fun _ => None)
             {| code := None; message := "Unexpected token" |})))).
    reflexivity.
Defined.

(** C9, as it is stated, fails with a custom response: the database error
    is handed on with the message of the storage layer, and no normalized
    reply is written. *)
Lemma custom_response_forwards_the_raw_message :
  Response.error Ref.codes (fun _ => Some 500) true Ref.raw_database_error
    = Response.Next
        (Some {| code := Some 206;
                 message := "ER_NO_SUCH_TABLE: no table post in schema warp" |})
  /\ message Ref.raw_database_error <> "Invalid query request".
Proof. split; [reflexivity | discriminate]. Qed.

Lemma sessions_by_token_logged_in : sessions_by_token Ref.db_logged_in.
Proof.
  intros token session H. simpl in H.
  apply lookup_singleton_Some in H as [<- <-]. split; reflexivity.
Qed.

(** Logging out with a token nobody holds, and with alice's token. *)
Lemma logOut_destroys_the_session_witness :
  fst (UserController.logOut Ref.codes Ref.ops Ref.api None "token-9"
         {| store := Ref.db_logged_in; trace := [] |})
    = Throw {| code := Some 103; message := "Session does not exist" |}
  /\ exists db',
      UserController.logOut Ref.codes Ref.ops Ref.api None "token-0"
        {| store := Ref.db_logged_in; trace := [] |}
        = (Ok Ref.alice_session,
           {| store := db';
              trace := [EvGetFromToken "token-0"; EvDestroy Ref.alice_session] |})
      /\ Ref.resolveToken "token-0" Ref.db_logged_in = Some Ref.alice_session
      /\ Ref.resolveToken "token-0" db' = None.
Proof.
  split.
  - rewrite (proj1 (proj1 logOut_destroys_the_session _ _ _
                      Ref.codes Ref.ops Ref.api None "token-9"
                      {| store := Ref.db_logged_in; trace := [] |} Ref.db_logged_in));
      reflexivity.
  - destruct (proj2 logOut_destroys_the_session None "token-0"
                {| store := Ref.db_logged_in; trace := [] |} Ref.alice_session
                sessions_by_token_logged_in eq_refl)
      as (db' & Hrun & _ & _ & Hresolve).
    exists db'. split; [exact Hrun|]. split; [reflexivity | exact Hresolve].
Defined.

(** * Further properties *)

(** ** Reading requests *)

Section ReadProperties.

Context {Store Model : Type}.

Variable Code : ErrorCodes.
Variable Defaults : QueryDefaults.
Variable newConstraintMap : WhereType -> Outcome ConstraintMap.
Variable api : WarpServer Store Model.

Implicit Types (w : World Store Model) (s : Store).

(** X1. The reading operations ([find] and [get] of the user controller,
    [me], [find] and [first] of the class routes) never issue a [save] or
    a [destroy], whatever the collaborators answer. *)
Theorem reads_issue_no_write
    (numberToString : Z -> string)
    className id select include where_ sort skip limit
    (currentUser : option Model) s :
  no_write (events_of (UserController.find Defaults newConstraintMap api
                         select include where_ sort skip limit) s) = true
  /\ no_write (events_of (UserController.get Code api numberToString
                            id select include) s)
     = true
  /\ no_write (events_of (UserController.me Code currentUser) s) = true
  /\ no_write (events_of (Classes.find Defaults newConstraintMap api className
                            select include where_ sort skip limit) s) = true
  /\ no_write (events_of (Classes.first api className id select include) s)
     = true.
Proof.
  unfold events_of, UserController.find, UserController.get, UserController.me,
    Classes.find, Classes.first; run_request.
  repeat split; simpl.
  - destruct (parseSubqueries api where_) as [where'|]; [|reflexivity].
    destruct (newConstraintMap where'); [|reflexivity].
    destruct (mc_find _ _ s). reflexivity.
  - destruct (mc_getById _ _ s) as [[[m|]|] s']; reflexivity.
  - destruct currentUser; reflexivity.
  - destruct (parseSubqueries api where_) as [where'|]; [|reflexivity].
    destruct (newConstraintMap where'); [|reflexivity].
    destruct (models_get api className) as [cls|]; [|reflexivity].
    destruct (mc_find cls _ s). reflexivity.
  - destruct (models_get api className) as [cls|]; [|reflexivity].
    destruct (mc_first cls _ s). reflexivity.
Qed.

Lemma js_or_number_nonzero x d : d <> 0 -> js_or_number x d <> 0.
Proof.
  intros Hd. destruct x as [n|]; simpl; [|exact Hd].
  destruct (Z.eqb_spec n 0); assumption.
Qed.

(** X2. When the default limit is not [0], no [find] ever asks the model
    class for [0] rows: every query it hands on has a limit other than
    [0], whatever limit the caller supplied. *)
Theorem find_never_asks_for_zero_rows
    className select include where_ sort skip limit s :
  Limit Defaults <> 0 ->
  Forall (fun q => q_limit q <> 0)
    (queries_of (events_of (UserController.find Defaults newConstraintMap api
                              select include where_ sort skip limit) s))
  /\ Forall (fun q => q_limit q <> 0)
    (queries_of (events_of (Classes.find Defaults newConstraintMap api
                              className select include where_ sort skip limit)
                           s)).
Proof.
  intros Hlimit.
  unfold events_of, UserController.find, Classes.find; run_request.
  split; simpl;
    (destruct (parseSubqueries api where_) as [where'|]; [|constructor]);
    (destruct (newConstraintMap where'); [|constructor]).
  - destruct (mc_find _ _ s). simpl.
    constructor; [apply js_or_number_nonzero, Hlimit | constructor].
  - destruct (models_get api className) as [cls|]; [|constructor].
    destruct (mc_find cls _ s). simpl.
    constructor; [apply js_or_number_nonzero, Hlimit | constructor].
Qed.

(** X3. A [where] that [parseSubqueries] or [new ConstraintMap] rejects
    stops both [find] functions with that error before anything else
    happens: no class is looked up, no query is issued, the world is as it
    was.  For the class route this holds whether or not the class name is
    registered. *)
Theorem find_rejected_where_issues_no_query
    className select include where_ sort skip limit w e :
  parseSubqueries api where_ = Throw e \/
  (exists where', parseSubqueries api where_ = Ok where' /\
                  newConstraintMap where' = Throw e) ->
  UserController.find Defaults newConstraintMap api
    select include where_ sort skip limit w = (Throw e, w)
  /\ Classes.find Defaults newConstraintMap api className
    select include where_ sort skip limit w = (Throw e, w).
Proof.
  unfold UserController.find, Classes.find; run_request.
  intros [-> | (where' & -> & ->)]; split; reflexivity.
Qed.

(** X4. A class name that [api.models.get] does not know stops every class
    route with the error of the registry, and nothing was done: no model
    is constructed and the world is as it was ([find] gets there once the
    [where] is accepted). *)
Theorem unknown_class_touches_nothing
    (SDK : Type) (ops : ModelOps Store Model SDK)
    className metadata currentUser keys id
    select include where_ sort skip limit w e :
  models_get api className = Throw e ->
  Classes.first api className id select include w = (Throw e, w)
  /\ Classes.create ops api metadata currentUser className keys w
     = (Throw e, w)
  /\ Classes.update ops api metadata currentUser className keys id w
     = (Throw e, w)
  /\ Classes.destroy ops api metadata currentUser className id w
     = (Throw e, w)
  /\ (forall where' constraintMap,
        parseSubqueries api where_ = Ok where' ->
        newConstraintMap where' = Ok constraintMap ->
        Classes.find Defaults newConstraintMap api className
          select include where_ sort skip limit w = (Throw e, w)).
Proof.
  intros Hclass.
  unfold Classes.first, Classes.create, Classes.update, Classes.destroy,
    Classes.find; run_request.
  rewrite Hclass. repeat split.
  intros where' constraintMap -> ->. reflexivity.
Qed.

(** X5. A sort list that the caller supplies reaches the model class as it
    is, the empty list too (unlike a supplied [0], an empty array is not
    replaced by the default), and the default order is used only when
    [sort] is omitted; [select] and [include] are handed on untouched. *)
Theorem find_hands_on_the_supplied_sort
    select include where_ sort skip limit s where' constraintMap :
  parseSubqueries api where_ = Ok where' ->
  newConstraintMap where' = Ok constraintMap ->
  exists query,
    queries_of (events_of (UserController.find Defaults newConstraintMap api
                             select include where_ sort skip limit) s)
      = [query]
    /\ q_select query = select
    /\ q_include query = include
    /\ q_where query = constraintMap
    /\ q_sort query = match sort with
                      | Some keys => keys
                      | None => Sort Defaults
                      end.
Proof.
  intros Hparse Hmap.
  unfold events_of, UserController.find; run_request.
  rewrite Hparse, Hmap. simpl.
  destruct (mc_find _ _ s). simpl.
  eexists. split; [reflexivity|].
  destruct sort; repeat split.
Qed.

End ReadProperties.

(** ** Writing requests *)

Section WriteProperties.

Context {Store Model SDK : Type}.

Variable Code : ErrorCodes.
Variable ops : ModelOps Store Model SDK.
Variable api : WarpServer Store Model.

Implicit Types (w : World Store Model) (s : Store) (Warp : option SDK).

(** X6. An anonymous request may create a user, master key or not: the
    model is constructed from the metadata and the keys, the SDK is bound
    to it, [save] is issued on it, and what [save] answers is returned. *)
Theorem user_create_by_anonymous_saves Warp metadata keys w model :
  mc_new (auth_user api)
    {| a_metadata := metadata; a_currentUser := None;
       a_keys := Some keys; a_id := None |} = Ok model ->
  let model := model_bindSDK ops Warp model in
  let r := model_save ops model (store w) in
  UserController.create Code ops api Warp metadata None keys w
    = (fst r,
       {| store := snd r;
          trace := trace w ++ [EvAuthorize true; EvSave model] |}).
Proof.
  intros Hnew. cbn zeta.
  unfold UserController.create; run_request. simpl. rewrite Hnew.
  destruct (model_save ops _ (store w)). simpl.
  rewrite <- app_assoc. reflexivity.
Qed.

(** X7. When the constructor of the user class rejects the arguments, the
    user controller stops with the error of the constructor: [create] of
    an anonymous request, and [update] and [destroy] of a caller that is
    the owner or holds the master key, leave the store as it was and
    issue no [save] and no [destroy]. *)
Theorem user_rejected_constructor_issues_no_write
    Warp metadata (currentUser : option Model) keys id w e :
  let passed :=
    {| store := store w; trace := trace w ++ [EvAuthorize true] |} in
  (mc_new (auth_user api)
     {| a_metadata := metadata; a_currentUser := None;
        a_keys := Some keys; a_id := None |} = Throw e ->
   UserController.create Code ops api Warp metadata None keys w
     = (Throw e, passed))
  /\ (UserController.not_owner_nor_master ops metadata currentUser id = false ->
      mc_new (auth_user api)
        {| a_metadata := metadata; a_currentUser := currentUser;
           a_keys := Some keys; a_id := Some id |} = Throw e ->
      UserController.update Code ops api Warp metadata currentUser keys id w
        = (Throw e, passed))
  /\ (UserController.not_owner_nor_master ops metadata currentUser id = false ->
      mc_new (auth_user api)
        {| a_metadata := metadata; a_currentUser := currentUser;
           a_keys := None; a_id := Some id |} = Throw e ->
      UserController.destroy Code ops api Warp metadata currentUser id w
        = (Throw e, passed)).
Proof.
  cbn zeta.
  unfold UserController.create, UserController.update, UserController.destroy;
    run_request.
  repeat split.
  - intros ->. reflexivity.
  - intros -> ->. reflexivity.
  - intros -> ->. reflexivity.
Qed.

(** X8. When the constructor of a named class rejects the arguments, the
    class routes stop with the error of the constructor and the world is
    as it was: no [save] and no [destroy] is issued. *)
Theorem class_rejected_constructor_issues_no_write
    metadata (currentUser : option Model) className keys id w modelClass e :
  models_get api className = Ok modelClass ->
  (mc_new modelClass
     {| a_metadata := metadata; a_currentUser := currentUser;
        a_keys := Some keys; a_id := None |} = Throw e ->
   Classes.create ops api metadata currentUser className keys w = (Throw e, w))
  /\ (mc_new modelClass
        {| a_metadata := metadata; a_currentUser := currentUser;
           a_keys := Some keys; a_id := Some id |} = Throw e ->
      Classes.update ops api metadata currentUser className keys id w
        = (Throw e, w))
  /\ (mc_new modelClass
        {| a_metadata := metadata; a_currentUser := currentUser;
           a_keys := None; a_id := Some id |} = Throw e ->
      Classes.destroy ops api metadata currentUser className id w
        = (Throw e, w)).
Proof.
  intros Hclass.
  unfold Classes.create, Classes.update, Classes.destroy; run_request.
  rewrite Hclass. repeat split; intros ->; reflexivity.
Qed.

(** X9. A login that [authenticate] answers with something that is no user
    ends right there: the world holds what [authenticate] left and the
    events are the passed condition and the call of [authenticate]; no
    token was generated, no revocation date asked for, no session
    constructed or saved. *)
Theorem logIn_failure_generates_no_token
    Warp metadata username email password w answer s1 :
  let credentials :=
    {| c_username := username; c_email := email; c_password := password |} in
  authenticate api credentials (store w) = (Ok answer, s1) ->
  not_a_user api answer ->
  UserController.logIn Code ops api Warp metadata None username email password w
    = (Throw (newError (InvalidCredentials Code) "Invalid username/password"),
       {| store := s1;
          trace := trace w ++
            [EvAuthorize true; EvAuthenticate credentials] |}).
Proof.
  intros credentials Hauth Hnot.
  unfold UserController.logIn; run_request. fold credentials. simpl.
  rewrite Hauth. rewrite <- app_assoc.
  destruct answer as [value|]; [|reflexivity].
  simpl in Hnot. rewrite Hnot. reflexivity.
Qed.

(** X10. The events of a login come in one order, whatever the
    collaborators answer or throw: the condition on the current user, then
    [authenticate], then the token, then the revocation date, then one
    [save]; a login stops early but skips nothing, generates a token only
    for an instance of the user class, and never issues a [destroy] or a
    second [save]. *)
Theorem logIn_event_order
    Warp metadata (currentUser : option Model) username email password s :
  let credentials :=
    {| c_username := username; c_email := email; c_password := password |} in
  let events :=
    events_of (UserController.logIn Code ops api Warp metadata currentUser
                 username email password) s in
  events = [EvAuthorize false]
  \/ events = [EvAuthorize true; EvAuthenticate credentials]
  \/ exists user,
       mc_instanceof (auth_user api) user = true
       /\ (events = [EvAuthorize true; EvAuthenticate credentials;
                     EvCreateSessionToken user]
           \/ events = [EvAuthorize true; EvAuthenticate credentials;
                        EvCreateSessionToken user; EvGetRevocationDate]
           \/ exists session,
                events = [EvAuthorize true; EvAuthenticate credentials;
                          EvCreateSessionToken user; EvGetRevocationDate;
                          EvSave session]).
Proof.
  intros credentials events. subst events.
  unfold events_of, UserController.logIn; run_request. fold credentials.
  destruct currentUser as [u|]; simpl; [left; reflexivity|right].
  destruct (authenticate api credentials s) as [[[user|]|e] s1]; simpl;
    try (left; reflexivity).
  destruct (mc_instanceof (auth_user api) user) eqn:Hinst; simpl;
    [|left; reflexivity].
  right. exists user. split; [exact Hinst|].
  destruct (createSessionToken api user s1) as [[token|e] s2]; simpl;
    [|left; reflexivity].
  right.
  destruct (getRevocationDate api s2) as [[revokedAt|e] s3]; simpl;
    [|left; reflexivity].
  destruct (mc_new _ _) as [session|e]; simpl; [|left; reflexivity].
  right. exists (model_bindSDK ops Warp session).
  destruct (model_save ops _ s3). reflexivity.
Qed.

End WriteProperties.

(** ** The response boundary and the router *)

Section RouterProperties.

Context {Store Model SDK : Type}.

Variable Code : ErrorCodes.
Variable status : Error -> option Z.
Variable ops : ModelOps Store Model SDK.
Variable api : WarpServer Store Model.

Implicit Types (w : World Store Model) (req : gmap string (Router.ReqValue Model)).

(** X11. Without a custom response, [Response.error] never answers with
    the status [0]: the status is the one of the error when that is a
    number other than [0], and [400] otherwise. *)
Theorem error_reply_status_is_never_zero (err : Error) :
  exists st body,
    Response.error Code status false err = Response.Json st body
    /\ st <> 0
    /\ (forall n, status err = Some n -> n <> 0 -> st = n)
    /\ (status err = None \/ status err = Some 0 -> st = 400).
Proof.
  unfold Response.error.
  destruct (match code err with
            | Some c => if c =? DatabaseError Code
                        then (c, "Invalid query request")
                        else (c, message err)
            | None => (400, message err)
            end) as [c m] eqn:Hbody.
  exists (js_or_number (status err) 400), {| Response.body_code := c;
                                             Response.body_message := m |}.
  split.
  { destruct (code err) as [c'|]; [destruct (c' =? DatabaseError Code)|];
      injection Hbody as <- <-; reflexivity. }
  split; [apply js_or_number_nonzero; discriminate|].
  apply js_or_number_supplied_or_default.
Qed.

(** X12. Without a custom response, a [DatabaseError] that a class route
    throws is answered by its handler with the code of the error and the
    message ["Invalid query request"], while the line handed to the logger
    carries the message of the storage layer. *)
Theorem write_handlers_mask_database_errors
    ResultKey req metadata (currentUser : option Model) className keys id
    w err w' :
  code err = Some (DatabaseError Code) ->
  let masked :=
    Router.Failed
      (Response.Json (js_or_number (status err) 400)
         {| Response.body_code := DatabaseError Code;
            Response.body_message := "Invalid query request" |}) in
  (Classes.create ops api metadata currentUser className keys w
     = (Throw err, w') ->
   Router.post_class Code status false ResultKey ops api req
     metadata currentUser className keys w
   = ({| Router.answer := masked;
         Router.logged :=
           [(err, "Could not create the object for `" +:+ className
                    +:+ "`: " +:+ message err)] |}, w'))
  /\ (Classes.update ops api metadata currentUser className keys id w
        = (Throw err, w') ->
      Router.put_class Code status false ResultKey ops api req
        metadata currentUser className id keys w
      = ({| Router.answer := masked;
            Router.logged :=
              [(err, "Could not update the object for `" +:+ className
                       +:+ "`: " +:+ message err)] |}, w'))
  /\ (Classes.destroy ops api metadata currentUser className id w
        = (Throw err, w') ->
      Router.delete_class Code status false ResultKey ops api req
        metadata currentUser className id w
      = ({| Router.answer := masked;
            Router.logged :=
              [(err, "Could not destroy the object for `" +:+ className
                       +:+ "`: " +:+ message err)] |}, w')).
Proof.
  intros Hcode masked. subst masked.
  unfold Router.post_class, Router.put_class, Router.delete_class,
    Response.error.
  repeat split; intros ->; rewrite Hcode, Z.eqb_refl; reflexivity.
Qed.

(** X13. When [InternalKeys.Middleware.Result] is the property ["result"]
    that the handlers assign, and there is no custom response, a route
    that returns a model is answered with status [200] and that model as
    the result, whatever the request held under ["result"] before, and
    nothing is logged. *)
Theorem write_handlers_answer_with_the_model
    req metadata (currentUser : option Model) className keys id w model w' :
  let answered :=
    {| Router.answer :=
         Router.Succeeded
           (Response.Json 200
              {| Response.body_result := Some (Router.ReqModel model) |});
       Router.logged := [] |} in
  (Classes.create ops api metadata currentUser className keys w
     = (Ok model, w') ->
   Router.post_class Code status false "result" ops api req
     metadata currentUser className keys w = (answered, w'))
  /\ (Classes.update ops api metadata currentUser className keys id w
        = (Ok model, w') ->
      Router.put_class Code status false "result" ops api req
        metadata currentUser className id keys w = (answered, w'))
  /\ (Classes.destroy ops api metadata currentUser className id w
        = (Ok model, w') ->
      Router.delete_class Code status false "result" ops api req
        metadata currentUser className id w = (answered, w')).
Proof.
  cbn zeta.
  unfold Router.post_class, Router.put_class, Router.delete_class,
    Router.succeed, Response.success.
  repeat split; intros ->; rewrite lookup_insert_eq; reflexivity.
Qed.

(** X14. With a custom response no handler writes a reply: a route that
    returns is handed on with [next()], a route that throws with
    [next(err)] for the very error it threw. *)
Theorem custom_response_handlers_write_no_reply
    ResultKey req metadata (currentUser : option Model) className keys id w :
  let handed_on {A} (r : Outcome A) :=
    match r with
    | Ok _ => Router.Succeeded (Response.Next None)
    | Throw err => Router.Failed (Response.Next (Some err))
    end in
  Router.answer (fst (Router.post_class Code status true ResultKey ops api req
                        metadata currentUser className keys w))
    = handed_on (fst (Classes.create ops api metadata currentUser
                        className keys w))
  /\ Router.answer (fst (Router.put_class Code status true ResultKey ops api
                           req metadata currentUser className id keys w))
    = handed_on (fst (Classes.update ops api metadata currentUser
                        className keys id w))
  /\ Router.answer (fst (Router.delete_class Code status true ResultKey ops api
                           req metadata currentUser className id w))
    = handed_on (fst (Classes.destroy ops api metadata currentUser
                        className id w)).
Proof.
  cbn zeta.
  unfold Router.post_class, Router.put_class, Router.delete_class.
  repeat split;
    match goal with |- context [fst (?f ops api ?a ?b ?c ?d w)] =>
      destruct (f ops api a b c d w) as [[model|err] w']
    | |- context [fst (?f ops api ?a ?b ?c ?d ?e w)] =>
      destruct (f ops api a b c d e w) as [[model|err] w']
    end; reflexivity.
Qed.

(** X15. Without a custom response, a request for a class that the
    registry does not know is answered with the code and the message of
    the error of the registry (a [DatabaseError] apart), and the world is
    as it was: the handlers construct nothing and write nothing. *)
Theorem write_handlers_answer_unknown_class
    ResultKey req metadata (currentUser : option Model) className keys id
    w e c :
  models_get api className = Throw e ->
  code e = Some c ->
  c <> DatabaseError Code ->
  let reply :=
    Router.Failed
      (Response.Json (js_or_number (status e) 400)
         {| Response.body_code := c; Response.body_message := message e |}) in
  (Router.answer (fst (Router.post_class Code status false ResultKey ops api
                         req metadata currentUser className keys w)) = reply
   /\ snd (Router.post_class Code status false ResultKey ops api
             req metadata currentUser className keys w) = w)
  /\ (Router.answer (fst (Router.put_class Code status false ResultKey ops api
                            req metadata currentUser className id keys w))
        = reply
      /\ snd (Router.put_class Code status false ResultKey ops api
                req metadata currentUser className id keys w) = w)
  /\ (Router.answer (fst (Router.delete_class Code status false ResultKey ops
                            api req metadata currentUser className id w))
        = reply
      /\ snd (Router.delete_class Code status false ResultKey ops
                api req metadata currentUser className id w) = w).
Proof.
  intros Hclass Hcode Hc reply. subst reply.
  unfold Router.post_class, Router.put_class, Router.delete_class,
    Classes.create, Classes.update, Classes.destroy, Response.error;
    run_request.
  rewrite Hclass, Hcode. simpl.
  destruct (Z.eqb_spec c (DatabaseError Code)); [contradiction|].
  repeat split.
Qed.

End RouterProperties.

(** ** The function controller *)

Section FunctionProperties.

Context {Store Model FunctionType Result : Type}.

Variable functions :
  FunctionController.Functions Store Model FunctionType Result.

(** X16. [run]: a function name that the registry does not know stops the
    request with the error of the registry, no function is run and the
    world is as it was; and a request that leaves [keys] out runs the
    function exactly as a request with the empty key bag does. *)
Theorem run_unknown_function_and_omitted_keys
    (user : option Model) functionName (w : World Store Model) :
  (forall e keys,
     FunctionController.functions_get functions functionName = Throw e ->
     FunctionController.run functions user functionName keys w = (Throw e, w))
  /\ FunctionController.run functions user functionName None w
     = FunctionController.run functions user functionName (Some ∅) w.
Proof.
  unfold FunctionController.run; run_request. repeat split.
  - intros e keys ->. reflexivity.
Qed.

End FunctionProperties.

(** * The further properties on concrete servers *)

(** A supplied limit of [0] on the in-memory server, default limit 100. *)
Lemma find_never_asks_for_zero_rows_witness :
  Forall (fun q => q_limit q <> 0)
    (queries_of (events_of (UserController.find (Ref.defaults 100)
                              Ref.newConstraintMap Ref.api
                              None None None None None (Some 0)) Ref.db0))
  /\ Forall (fun q => q_limit q <> 0)
    (queries_of (events_of (Classes.find (Ref.defaults 100)
                              Ref.newConstraintMap Ref.api "post"
                              None None None None None (Some 0)) Ref.db0)).
Proof.
  apply (find_never_asks_for_zero_rows (Ref.defaults 100)
           Ref.newConstraintMap Ref.api "post"
           None None None None None (Some 0) Ref.db0).
  simpl. lia.
Defined.

(** A [where] on the field ["$bad"], rejected by the parser of the strict
    server and by the strict constraint map, for a class nobody
    registered. *)
Lemma find_rejected_where_issues_no_query_witness :
  (UserController.find (Ref.defaults 100) Ref.newConstraintMap
     Faulty.strict_api None None Faulty.bad_where None None None Ref.world0
   = (Throw Faulty.invalid_where, Ref.world0)
   /\ Classes.find (Ref.defaults 100) Ref.newConstraintMap
        Faulty.strict_api "nope" None None Faulty.bad_where None None None
        Ref.world0
      = (Throw Faulty.invalid_where, Ref.world0))
  /\ Classes.find (Ref.defaults 100) Faulty.strict_map
       Ref.api "nope" None None Faulty.bad_where None None None Ref.world0
     = (Throw Faulty.invalid_where, Ref.world0).
Proof.
  split.
  - apply (find_rejected_where_issues_no_query (Ref.defaults 100)
             Ref.newConstraintMap Faulty.strict_api "nope").
    left. reflexivity.
  - apply (find_rejected_where_issues_no_query (Ref.defaults 100)
             Faulty.strict_map Ref.api "nope").
    right. exists Faulty.bad_where. split; reflexivity.
Defined.

(** The class ["nope"], which the in-memory server does not register. *)
Lemma unknown_class_touches_nothing_witness :
  Classes.first Ref.api "nope" 7 None None Ref.world0
    = (Throw (Faulty.not_found "nope"), Ref.world0)
  /\ Classes.update Ref.ops Ref.api Ref.master None "nope" ∅ 7 Ref.world0
    = (Throw (Faulty.not_found "nope"), Ref.world0)
  /\ Classes.find (Ref.defaults 100) Ref.newConstraintMap Ref.api "nope"
       None None None None None None Ref.world0
    = (Throw (Faulty.not_found "nope"), Ref.world0).
Proof.
  destruct (unknown_class_touches_nothing (Ref.defaults 100)
              Ref.newConstraintMap Ref.api unit Ref.ops "nope" Ref.master None
              ∅ 7 None None None None None None Ref.world0
              (Faulty.not_found "nope") eq_refl)
    as (Hfirst & _ & Hupdate & _ & Hfind).
  split; [exact Hfirst|]. split; [exact Hupdate|].
  apply (Hfind None {| constraints := ∅ |}); reflexivity.
Defined.

(** An empty sort list is handed on as it is. *)
Lemma find_hands_on_the_supplied_sort_witness :
  exists query,
    queries_of (events_of (UserController.find (Ref.defaults 100)
                             Ref.newConstraintMap Ref.api
                             (Some ["username"]) None None (Some []) None None)
                          Ref.db0) = [query]
    /\ q_select query = Some ["username"]
    /\ q_sort query = [].
Proof.
  destruct (find_hands_on_the_supplied_sort (Ref.defaults 100)
              Ref.newConstraintMap Ref.api
              (Some ["username"]) None None (Some []) None None Ref.db0
              None {| constraints := ∅ |} eq_refl eq_refl)
    as (query & Hq & Hselect & _ & _ & Hsort).
  exists query. repeat split; assumption.
Defined.

(** An anonymous request without the master key creates a user. *)
Lemma user_create_by_anonymous_saves_witness :
  trace (snd (UserController.create Ref.codes Ref.ops Ref.api None
                Ref.anonymous None {[ "username" := JString "carol" ]}
                Ref.world0))
    = [EvAuthorize true;
       EvSave {| Ref.o_class := "user"; Ref.o_id := None;
                 Ref.o_keys := {[ "username" := JString "carol" ]};
                 Ref.o_sdk := None |}]
  /\ fst (UserController.create Ref.codes Ref.ops Ref.api None
            Ref.anonymous None {[ "username" := JString "carol" ]} Ref.world0)
    = Ok {| Ref.o_class := "user"; Ref.o_id := Some 10;
            Ref.o_keys := {[ "username" := JString "carol" ]};
            Ref.o_sdk := None |}.
Proof.
  rewrite (user_create_by_anonymous_saves Ref.codes Ref.ops Ref.api None
             Ref.anonymous {[ "username" := JString "carol" ]} Ref.world0
             _ eq_refl).
  split; reflexivity.
Defined.

(** The strict user class rejects a key bag with ["id"] and the id [0]. *)
Lemma user_rejected_constructor_issues_no_write_witness :
  UserController.create Ref.codes Ref.ops Faulty.strict_api None
    Ref.anonymous None {[ "id" := JNumber 1 ]} Ref.world0
    = (Throw Faulty.invalid_key,
       {| store := Ref.db0; trace := [EvAuthorize true] |})
  /\ UserController.update Ref.codes Ref.ops Faulty.strict_api None
       Ref.anonymous (Some Ref.alice) {[ "id" := JNumber 1 ]} 7 Ref.world0
    = (Throw Faulty.invalid_key,
       {| store := Ref.db0; trace := [EvAuthorize true] |})
  /\ UserController.destroy Ref.codes Ref.ops Faulty.strict_api None
       Ref.master None 0 Ref.world0
    = (Throw Faulty.invalid_id,
       {| store := Ref.db0; trace := [EvAuthorize true] |}).
Proof.
  split; [|split].
  - apply (proj1 (user_rejected_constructor_issues_no_write Ref.codes Ref.ops
                    Faulty.strict_api None Ref.anonymous None
                    {[ "id" := JNumber 1 ]} 7 Ref.world0 Faulty.invalid_key)).
    reflexivity.
  - apply (proj1 (proj2 (user_rejected_constructor_issues_no_write
                           Ref.codes Ref.ops Faulty.strict_api None
                           Ref.anonymous (Some Ref.alice)
                           {[ "id" := JNumber 1 ]} 7 Ref.world0
                           Faulty.invalid_key)));
      reflexivity.
  - apply (proj2 (proj2 (user_rejected_constructor_issues_no_write
                           Ref.codes Ref.ops Faulty.strict_api None
                           Ref.master None ∅ 0 Ref.world0
                           Faulty.invalid_id)));
      reflexivity.
Defined.

(** The strict class ["post"] rejects them as well. *)
Lemma class_rejected_constructor_issues_no_write_witness :
  Classes.create Ref.ops Faulty.strict_api Ref.anonymous None "post"
    {[ "id" := JNumber 1 ]} Ref.world0
    = (Throw Faulty.invalid_key, Ref.world0)
  /\ Classes.update Ref.ops Faulty.strict_api Ref.anonymous None "post"
       {[ "id" := JNumber 1 ]} 7 Ref.world0
    = (Throw Faulty.invalid_key, Ref.world0)
  /\ Classes.destroy Ref.ops Faulty.strict_api Ref.anonymous None "post" 0
       Ref.world0
    = (Throw Faulty.invalid_id, Ref.world0).
Proof.
  split; [|split].
  - apply (proj1 (class_rejected_constructor_issues_no_write Ref.ops
                    Faulty.strict_api Ref.anonymous None "post"
                    {[ "id" := JNumber 1 ]} 7 Ref.world0
                    (Faulty.strict_class "post") Faulty.invalid_key eq_refl)).
    reflexivity.
  - apply (proj1 (proj2 (class_rejected_constructor_issues_no_write Ref.ops
                    Faulty.strict_api Ref.anonymous None "post"
                    {[ "id" := JNumber 1 ]} 7 Ref.world0
                    (Faulty.strict_class "post") Faulty.invalid_key eq_refl))).
    reflexivity.
  - apply (proj2 (proj2 (class_rejected_constructor_issues_no_write Ref.ops
                    Faulty.strict_api Ref.anonymous None "post"
                    ∅ 0 Ref.world0
                    (Faulty.strict_class "post") Faulty.invalid_id eq_refl))).
    reflexivity.
Defined.

(** Alice with a wrong password: no token leaves the generator. *)
Lemma logIn_failure_generates_no_token_witness :
  UserController.logIn Ref.codes Ref.ops Ref.api None Ref.anonymous None
    (Some "alice") None "looking-glass" Ref.world0
  = (Throw {| code := Some 102; message := "Invalid username/password" |},
     {| store := Ref.db0;
        trace := [EvAuthorize true;
                  EvAuthenticate {| c_username := Some "alice";
                                    c_email := None;
                                    c_password := "looking-glass" |}] |}).
Proof.
  apply (logIn_failure_generates_no_token Ref.codes Ref.ops Ref.api None
           Ref.anonymous (Some "alice") None "looking-glass" Ref.world0
           None Ref.db0);
    [reflexivity | exact I].
Defined.

(** An error whose status is [0] is answered with [400], and the
    forbidden login with its own status. *)
Lemma error_reply_status_is_never_zero_witness :
  (exists body,
     Response.error Ref.codes (fun _ => Some 0) false Faulty.driver_down
       = Response.Json 400 body)
  /\ (exists body,
     Response.error Ref.codes (fun _ => Some 403) false
       (newError 106 "Cannot log in using an active session. Please log out.")
       = Response.Json 403 body).
Proof.
  split.
  - destruct (error_reply_status_is_never_zero Ref.codes (fun _ => Some 0)
                Faulty.driver_down) as (st & body & Hreply & _ & _ & Hdefault).
    exists body. rewrite Hreply, Hdefault; [reflexivity | right; reflexivity].
  - destruct (error_reply_status_is_never_zero Ref.codes (fun _ => Some 403)
                (newError 106
                   "Cannot log in using an active session. Please log out."))
      as (st & body & Hreply & _ & Hstatus & _).
    exists body. rewrite Hreply, (Hstatus 403); [reflexivity.. | lia].
Defined.

(** The driver is down while a post is created, updated and destroyed. *)
Lemma write_handlers_mask_database_errors_witness :
  fst (Router.post_class Ref.codes (fun _ => Some 500) false "result"
         Faulty.down_ops Ref.api ∅ Ref.anonymous None "post" ∅ Ref.world0)
    = {| Router.answer :=
           Router.Failed
             (Response.Json 500
                {| Response.body_code := 206;
                   Response.body_message := "Invalid query request" |});
         Router.logged :=
           [(Faulty.driver_down,
             "Could not create the object for `post`: ECONNREFUSED 127.0.0.1:3306")] |}
  /\ Router.logged
       (fst (Router.put_class Ref.codes (fun _ => Some 500) false "result"
               Faulty.down_ops Ref.api ∅ Ref.anonymous None "post" 7 ∅
               Ref.world0))
    = [(Faulty.driver_down,
        "Could not update the object for `post`: ECONNREFUSED 127.0.0.1:3306")]
  /\ Router.logged
       (fst (Router.delete_class Ref.codes (fun _ => Some 500) false "result"
               Faulty.down_ops Ref.api ∅ Ref.anonymous None "post" 7
               Ref.world0))
    = [(Faulty.driver_down,
        "Could not destroy the object for `post`: ECONNREFUSED 127.0.0.1:3306")].
Proof.
  split; [|split].
  - erewrite (proj1 (write_handlers_mask_database_errors Ref.codes
                       (fun _ => Some 500) Faulty.down_ops Ref.api "result" ∅
                       Ref.anonymous None "post" ∅ 7 Ref.world0
                       Faulty.driver_down _ eq_refl));
      reflexivity.
  - erewrite (proj1 (proj2 (write_handlers_mask_database_errors Ref.codes
                       (fun _ => Some 500) Faulty.down_ops Ref.api "result" ∅
                       Ref.anonymous None "post" ∅ 7 Ref.world0
                       Faulty.driver_down _ eq_refl)));
      reflexivity.
  - erewrite (proj2 (proj2 (write_handlers_mask_database_errors Ref.codes
                       (fun _ => Some 500) Faulty.down_ops Ref.api "result" ∅
                       Ref.anonymous None "post" ∅ 7 Ref.world0
                       Faulty.driver_down _ eq_refl)));
      reflexivity.
Defined.

(** A post is created, updated and destroyed on the in-memory server. *)
Lemma write_handlers_answer_with_the_model_witness :
  Router.answer
    (fst (Router.post_class Ref.codes (fun _ => None) false "result"
            Ref.ops Ref.api ∅ Ref.anonymous None "post" ∅ Ref.world0))
    = Router.Succeeded
        (Response.Json 200
           {| Response.body_result :=
                Some (Router.ReqModel
                        {| Ref.o_class := "post"; Ref.o_id := Some 10;
                           Ref.o_keys := ∅; Ref.o_sdk := None |}) |})
  /\ Router.answer
    (fst (Router.put_class Ref.codes (fun _ => None) false "result"
            Ref.ops Ref.api ∅ Ref.anonymous None "post" 7 ∅ Ref.world0))
    = Router.Succeeded
        (Response.Json 200
           {| Response.body_result :=
                Some (Router.ReqModel
                        {| Ref.o_class := "post"; Ref.o_id := Some 7;
                           Ref.o_keys := ∅; Ref.o_sdk := None |}) |})
  /\ Router.logged
    (fst (Router.delete_class Ref.codes (fun _ => None) false "result"
            Ref.ops Ref.api ∅ Ref.anonymous None "post" 7 Ref.world0))
    = [].
Proof.
  split; [|split].
  - erewrite (proj1 (write_handlers_answer_with_the_model Ref.codes
                       (fun _ => None) Ref.ops Ref.api ∅ Ref.anonymous None
                       "post" ∅ 7 Ref.world0 _ _));
      reflexivity.
  - erewrite (proj1 (proj2 (write_handlers_answer_with_the_model Ref.codes
                       (fun _ => None) Ref.ops Ref.api ∅ Ref.anonymous None
                       "post" ∅ 7 Ref.world0 _ _)));
      reflexivity.
  - erewrite (proj2 (proj2 (write_handlers_answer_with_the_model Ref.codes
                       (fun _ => None) Ref.ops Ref.api ∅ Ref.anonymous None
                       "post" ∅ 7 Ref.world0 _ _)));
      reflexivity.
Defined.

(** A post of the class ["nope"]. *)
Lemma write_handlers_answer_unknown_class_witness :
  Router.post_class Ref.codes (fun _ => Some 404) false "result"
    Ref.ops Ref.api ∅ Ref.anonymous None "nope" ∅ Ref.world0
  = ({| Router.answer :=
          Router.Failed
            (Response.Json 404
               {| Response.body_code := 110;
                  Response.body_message := "Model `nope` not found" |});
        Router.logged :=
          [(Faulty.not_found "nope",
            "Could not create the object for `nope`: Model `nope` not found")] |},
     Ref.world0).
Proof.
  destruct (write_handlers_answer_unknown_class Ref.codes (fun _ => Some 404)
              Ref.ops Ref.api "result" ∅ Ref.anonymous None "nope" ∅ 7
              Ref.world0 (Faulty.not_found "nope") 110)
    as ((Hanswer & Hworld) & _); [reflexivity | reflexivity | discriminate |].
  destruct (Router.post_class _ _ _ _ _ _ _ _ _ _ _ _) as [handled world] eqn:Hrun.
  simpl in Hanswer, Hworld. subst world.
  f_equal. destruct handled as [a l]. simpl in Hanswer. subst a.
  f_equal. apply (f_equal (fun r => Router.logged (fst r))) in Hrun.
  simpl in Hrun. rewrite <- Hrun. reflexivity.
Defined.

(** The registry holds ["echo"] only. *)
Lemma run_unknown_function_and_omitted_keys_witness :
  FunctionController.run Faulty.echo (Some Ref.alice) "nope"
    (Some {[ "n" := JNumber 1 ]}) Ref.world0
    = (Throw (newError 111 "Function `nope` not found"), Ref.world0)
  /\ FunctionController.run Faulty.echo None "echo" None Ref.world0
    = (Ok ∅, Ref.world0).
Proof.
  split.
  - apply (proj1 (run_unknown_function_and_omitted_keys Faulty.echo
                    (Some Ref.alice) "nope" Ref.world0)).
    reflexivity.
  - rewrite (proj2 (run_unknown_function_and_omitted_keys Faulty.echo
                      None "echo" Ref.world0)).
    reflexivity.
Defined.
